(** * Bot-Website documentation service: store, fetch helpers and server

    A shallow embedding of
    - the Pinia [DocumentationStore] (frontend cache of indices and
      recommended items),
    - the fetch helpers of [frontend/src/utils/fetch.ts],
    - the Express routes and the queue consumer of the documentation server,
    followed by the properties of the written specification, each settled
    against these definitions. *)

From Stdlib Require Import ZArith String Ascii List Bool.
From stdpp Require Import base decidable option list strings gmap.

Local Open Scope string_scope.
Local Open Scope list_scope.

(** ** Programs that call into their environment

    An [async] store action awaits fetch helpers; a route handler calls the
    file accessors.  Both are programs over a signature of calls: [Ret] is a
    finished program, [Call c k] performs the call [c] and continues with [k]
    on its reply.  Running a program against an environment yields its
    result and the calls it made, in order. *)

Section Interaction.
Context {C : Type} {reply : C → Type}.

Inductive Prog (A : Type) : Type :=
| Ret (a : A)
| Call (c : C) (k : reply c → Prog A).

Global Arguments Ret {A} a.
Global Arguments Call {A} c k.

Fixpoint bind {A B : Type} (p : Prog A) (f : A → Prog B) : Prog B :=
  match p with
  | Ret a => f a
  | Call c k => Call c (λ r, bind (k r) f)
  end.

Definition perform (c : C) : Prog (reply c) := Call c Ret.

Fixpoint run {A : Type} (env : ∀ c, reply c) (p : Prog A) : A * list C :=
  match p with
  | Ret a => (a, [])
  | Call c k => let '(a, calls) := run env (k (env c)) in (a, c :: calls)
  end.

Definition result {A : Type} (env : ∀ c, reply c) (p : Prog A) : A :=
  fst (run env p).

Definition calls {A : Type} (env : ∀ c, reply c) (p : Prog A) : list C :=
  snd (run env p).
End Interaction.

Global Arguments Prog {C} reply A.

(** ** Data model ([customTypes]) *)

Record IndexItem := {
  category : string;
  children : list string
}.

Record RecommendedItem := {
  title : string;
  anchor : string;
  item_category : string;
  id : Z;
  page : string;
  time : Z;
  icon : string
}.

Record FolderItem := {
  folder_category : string;
  folder_icon : string;
  folder_name : string
}.

Record DocumentationIndexResponse := { index : list IndexItem }.

Record DocumentationCategoriesResponse := { categories : list FolderItem }.

Record RecommendedItemsResponse := { recommended_items : list RecommendedItem }.

Record DocumentationRefreshResponse := {
  refresh_docIndex : list IndexItem;
  refresh_guideIndex : list IndexItem;
  refresh_recommendedDocItems : list RecommendedItem;
  refresh_recommendedGuideItems : list RecommendedItem
}.

(** A fetch helper resolves to [T | boolean]; [typeof data === "boolean"]
    recognises the sentinel. *)
Inductive FetchResult (T : Type) : Type :=
| Sentinel (b : bool)
| Payload (data : T).

Global Arguments Sentinel {T} b.
Global Arguments Payload {T} data.

(** JavaScript truthiness of a [string | undefined] argument: [!x] holds for
    [undefined] and for the empty string. *)
Definition falsy (x : option string) : bool :=
  match x with
  | None => true
  | Some s => bool_decide (s = "")
  end.

(** [xs.filter(p)[0]]: the first element satisfying [p], or [undefined]. *)
Definition first_match {A : Type} (p : A → bool) (xs : list A) : option A :=
  head (List.filter p xs).

(** ** The documentation store *)

Module DocumentationStore.

Record State := {
  docIndex : list IndexItem;
  guideIndex : list IndexItem;
  recommendedDocItems : list RecommendedItem;
  recommendedGuideItems : list RecommendedItem;
  version : string;
  language : string
}.

Definition initial : State :=
  {| docIndex := []; guideIndex := [];
     recommendedDocItems := []; recommendedGuideItems := [];
     version := "v1"; language := "en-US" |}.

(** The two families of store state keys selected by [convertedType]. *)
Inductive IndexKey := docIndexKey | guideIndexKey.
Inductive RecommendedKey := recommendedDocItemsKey | recommendedGuideItemsKey.

Definition read_index (key : IndexKey) (this : State) : list IndexItem :=
  match key with
  | docIndexKey => docIndex this
  | guideIndexKey => guideIndex this
  end.

Definition write_index (key : IndexKey) (v : list IndexItem) (this : State) : State :=
  match key with
  | docIndexKey =>
      {| docIndex := v; guideIndex := guideIndex this;
         recommendedDocItems := recommendedDocItems this;
         recommendedGuideItems := recommendedGuideItems this;
         version := version this; language := language this |}
  | guideIndexKey =>
      {| docIndex := docIndex this; guideIndex := v;
         recommendedDocItems := recommendedDocItems this;
         recommendedGuideItems := recommendedGuideItems this;
         version := version this; language := language this |}
  end.

Definition read_recommended (key : RecommendedKey) (this : State) : list RecommendedItem :=
  match key with
  | recommendedDocItemsKey => recommendedDocItems this
  | recommendedGuideItemsKey => recommendedGuideItems this
  end.

Definition write_recommended (key : RecommendedKey) (v : list RecommendedItem)
    (this : State) : State :=
  match key with
  | recommendedDocItemsKey =>
      {| docIndex := docIndex this; guideIndex := guideIndex this;
         recommendedDocItems := v;
         recommendedGuideItems := recommendedGuideItems this;
         version := version this; language := language this |}
  | recommendedGuideItemsKey =>
      {| docIndex := docIndex this; guideIndex := guideIndex this;
         recommendedDocItems := recommendedDocItems this;
         recommendedGuideItems := v;
         version := version this; language := language this |}
  end.

(** The fetch helpers the store imports from [@/utils/fetch], as calls to
    the network. *)
Inductive FetchCall :=
| fetchDocumentationIndex (version language type : string)
| fetchRecommendedItems (language type : string)
| fetchDocumentationRefresh (version language : string).

Definition FetchReply (c : FetchCall) : Type :=
  match c with
  | fetchDocumentationIndex _ _ _ => FetchResult DocumentationIndexResponse
  | fetchRecommendedItems _ _ => FetchResult RecommendedItemsResponse
  | fetchDocumentationRefresh _ _ => FetchResult DocumentationRefreshResponse
  end.

(** A store action: a program over the fetch helpers that threads the
    store state [this]. *)
Definition Action (A : Type) : Type := State → Prog FetchReply (A * State).

Definition ret {A} (a : A) : Action A := λ this, Ret (a, this).

Definition bindA {A B} (m : Action A) (f : A → Action B) : Action B :=
  λ this, bind (m this) (λ '(a, this'), f a this').

Definition get : Action State := λ this, Ret (this, this).

Definition put (this' : State) : Action unit := λ _, Ret (tt, this').

(** [this[key] = v] *)
Definition assign_index (key : IndexKey) (v : list IndexItem) : Action unit :=
  λ this, Ret (tt, write_index key v this).

Definition assign_recommended (key : RecommendedKey) (v : list RecommendedItem)
    : Action unit :=
  λ this, Ret (tt, write_recommended key v this).

Definition await (c : FetchCall) : Action (FetchReply c) :=
  λ this, bind (perform c) (λ r, Ret (r, this)).

Declare Scope action_scope.
Delimit Scope action_scope with action.
Notation "'let*' x := m 'in' f" := (bindA m (λ x, f))
  (at level 10, x name, m at level 100, f at level 200) : action_scope.
Notation "m ;;; f" := (bindA m (λ _, f))
  (at level 100, f at level 200, right associativity) : action_scope.
Local Open Scope action_scope.

Definition setVersion (newVersion : string) : Action unit :=
  let validVersions := ["v1"] in
  if negb (bool_decide (newVersion ∈ validVersions)) then ret tt
  else
    let* this := get in
    put {| docIndex := docIndex this; guideIndex := guideIndex this;
           recommendedDocItems := recommendedDocItems this;
           recommendedGuideItems := recommendedGuideItems this;
           version := newVersion; language := language this |}.

Definition setLanguage (newLanguage : string) : Action unit :=
  let validLanguages := ["en-US"] in
  if negb (bool_decide (newLanguage ∈ validLanguages)) then ret tt
  else
    let* this := get in
    put {| docIndex := docIndex this; guideIndex := guideIndex this;
           recommendedDocItems := recommendedDocItems this;
           recommendedGuideItems := recommendedGuideItems this;
           version := version this; language := newLanguage |}.

Definition indexKeyOf (type : string) : IndexKey :=
  let convertedType := docIndexKey in
  if bool_decide (type = "Guide") then guideIndexKey else convertedType.

Definition recommendedKeyOf (type : string) : RecommendedKey :=
  let convertedType := recommendedDocItemsKey in
  if bool_decide (type = "Guide") then recommendedGuideItemsKey else convertedType.

Definition getIndex (force : bool) (type : string) : Action (list IndexItem) :=
  let convertedType := indexKeyOf type in
  let* this := get in
  if (length (read_index convertedType this) =? 0)%nat || force then
    let* data := await (fetchDocumentationIndex (version this) (language this) type) in
    match data with
    | Sentinel _ => let* this := get in ret (read_index convertedType this)
    | Payload data =>
        assign_index convertedType (index data);;;
        ret (index data)
    end
  else ret (read_index convertedType this).

Definition getRecommendedItems (force : bool) (type : string)
    : Action (list RecommendedItem) :=
  let convertedType := recommendedKeyOf type in
  let* this := get in
  if (length (read_recommended convertedType this) =? 0)%nat || force then
    let* data := await (fetchRecommendedItems (language this) type) in
    match data with
    | Sentinel _ => let* this := get in ret (read_recommended convertedType this)
    | Payload data =>
        assign_recommended convertedType (recommended_items data);;;
        ret (recommended_items data)
    end
  else ret (read_recommended convertedType this).

(** [validateFolder], [validatePage] and [getCategoryList] are synchronous:
    functions of the store state alone.  [undefined] results are [None]. *)
Definition validateFolder (folder : option string) (type : string) (this : State)
    : option IndexItem :=
  let convertedType := indexKeyOf type in
  match folder with
  | Some f =>
      if falsy folder then None
      else first_match (λ indexItem, bool_decide (category indexItem = f))
             (read_index convertedType this)
  | None => None
  end.

Definition validatePage (folder name : option string) (type : string) (this : State)
    : bool :=
  if falsy folder || falsy name then false
  else
    match validateFolder folder type this, name with
    | Some target, Some n =>
        (0 <? length (List.filter (λ child, bool_decide (child = n)) (children target)))%nat
    | _, _ => false
    end.

Definition refresh : Action unit :=
  let* this := get in
  let* data := await (fetchDocumentationRefresh (version this) (language this)) in
  match data with
  | Sentinel _ => ret tt
  | Payload data =>
      assign_index docIndexKey (refresh_docIndex data);;;
      assign_index guideIndexKey (refresh_guideIndex data);;;
      assign_recommended recommendedDocItemsKey (refresh_recommendedDocItems data);;;
      assign_recommended recommendedGuideItemsKey (refresh_recommendedGuideItems data)
  end.

Definition getCategoryList (type categoryName : string) (this : State)
    : option (list string) :=
  let convertedType := indexKeyOf type in
  children <$>
    first_match (λ indexItem, bool_decide (category indexItem = categoryName))
      (read_index convertedType this).

End DocumentationStore.

(** ** Fetch helpers ([frontend/src/utils/fetch.ts]) *)

Module Fetch.

(** What a helper reads of a [Response]: its status and the outcome of
    [response.json()] at the type the helper declares ([None] when
    [json()] rejects).  [response.ok] is the Fetch standard's: the status
    lies in 200..299. *)
Record Response (T : Type) := {
  status : Z;
  json : option T
}.
Global Arguments status {T} r.
Global Arguments json {T} r.

Definition ok {T} (response : Response T) : bool :=
  (200 <=? status response)%Z && (status response <=? 299)%Z.

(** [await fetch(url, { method: "GET" })] resolves with a response or
    throws.  A helper takes the network as the function [fetch] from the
    URL it requests to this outcome; the [console.log] of its [catch] block
    is not recorded. *)
Inductive Outcome (T : Type) : Type :=
| Throws
| Resolves (response : Response T).
Global Arguments Throws {T}.
Global Arguments Resolves {T} response.

Section Helpers.
Variable VITE_DOCS_API_BASE : string.

Definition fetchDocumentationIndex
    (fetch : string → Outcome DocumentationIndexResponse)
    (version language : string) : FetchResult DocumentationIndexResponse :=
  match fetch (VITE_DOCS_API_BASE +:+ "/getIndex/" +:+ version +:+ "/" +:+ language) with
  | Resolves response =>
      if ok response then
        match json response with
        | Some data => Payload data
        | None => Sentinel false
        end
      else if (status response =? 404)%Z then Payload {| index := [] |}
      else Sentinel false
  | Throws => Sentinel false
  end.

Definition fetchDocumentationCategories
    (fetch : string → Outcome DocumentationCategoriesResponse)
    (version language : string) : FetchResult DocumentationCategoriesResponse :=
  match fetch (VITE_DOCS_API_BASE +:+ "/getCategories/" +:+ version +:+ "/" +:+ language) with
  | Resolves response =>
      if ok response then
        match json response with
        | Some data => Payload data
        | None => Sentinel false
        end
      else if (status response =? 404)%Z then Payload {| categories := [] |}
      else Sentinel false
  | Throws => Sentinel false
  end.
End Helpers.

End Fetch.

(** ** The documentation server *)

Module Server.

(** A file accessor returns its data or a numeric HTTP status;
    [typeof x === "number"] recognises the status. *)
Inductive OrNumber (T : Type) : Type :=
| Number (n : Z)
| Data (data : T).
Global Arguments Number {T} n.
Global Arguments Data {T} data.

Definition DocumentationFile := string.

Record FileRequest := { folder : string; name : string }.
Record FilesRequest := { files_folder : string }.

(** The accessors of [./utils/file], as calls made by the route handlers. *)
Inductive AccessorCall :=
| getFile (folder name version language type : string)
| getFiles (folder version language type : string)
| getDefaultFile (folder version language type : string)
| getIndex (version language type : string)
| getRecommendedItems (language type : string)
| getCategories (version language type : string).

Definition AccessorReply (c : AccessorCall) : Type :=
  match c with
  | getFile _ _ _ _ _ => OrNumber DocumentationFile
  | getFiles _ _ _ _ => OrNumber (list string)
  | getDefaultFile _ _ _ _ => OrNumber DocumentationFile
  | getIndex _ _ _ => OrNumber (list IndexItem)
  | getRecommendedItems _ _ => OrNumber (list RecommendedItem)
  | getCategories _ _ _ => OrNumber (list FolderItem)
  end.

(** The object handed to [res.json]. *)
Inductive JsonBody :=
| RefreshBody (docIndex guideIndex : list IndexItem)
    (recommendedDocItems recommendedGuideItems : list RecommendedItem)
| FileBody (file : DocumentationFile)
| FilesBody (files : list string)
| IndexBody (index : list IndexItem)
| RecommendedItemsBody (recommended_items : list RecommendedItem)
| CategoriesBody (categories : list FolderItem).

Inductive Reply :=
| sendStatus (code : Z)
| sendJson (body : JsonBody).

(** A route handler, as Express invokes it once the middleware in front of
    it (CORS, logging, the rate limit of the refresh route) has passed the
    request on: a program over the accessors that ends in one reply. *)
Definition Handler := Prog AccessorReply Reply.

(** [const x = accessor(...); if (typeof x === "number") return res.sendStatus(x);]
    ([cast] only unfolds the reply type of the call [c].) *)
Definition orSendStatus (c : AccessorCall) {T} (cast : AccessorReply c → OrNumber T)
    (k : T → Handler) : Handler :=
  bind (perform c) (λ x,
    match cast x with
    | Number n => Ret (sendStatus n)
    | Data x => k x
    end).

Notation "'const' x := c 'or' 'sendStatus' 'in' k" :=
  (orSendStatus c (λ r, r) (λ x, k))
  (at level 10, x name, c at level 100, k at level 200).

Definition placeholder : RecommendedItem :=
  {| title := "None_Available";
     anchor := "";
     item_category := "";
     id := 1;
     page := "";
     time := 1;
     icon := "" |}.

(** [if (items.length === 0) items.push(placeholder);]  The array extended
    is the one the accessor returned; accessor results are taken as values,
    a fresh array per call. *)
Definition pushPlaceholderIfEmpty (items : list RecommendedItem) : list RecommendedItem :=
  if (length items =? 0)%nat then items ++ [placeholder] else items.

Definition refreshRoute (version language : string) : Handler :=
  const docIndex := getIndex version language "Doc" or sendStatus in
  const guideIndex := getIndex version language "Guide" or sendStatus in
  const recommendedDocItems := getRecommendedItems language "Doc" or sendStatus in
  let recommendedDocItems := pushPlaceholderIfEmpty recommendedDocItems in
  const recommendedGuideItems := getRecommendedItems language "Guide" or sendStatus in
  let recommendedGuideItems := pushPlaceholderIfEmpty recommendedGuideItems in
  Ret (sendJson (RefreshBody docIndex guideIndex recommendedDocItems recommendedGuideItems)).

Definition getFileRoute (version language type : string) (searchQuery : FileRequest)
    : Handler :=
  const file := getFile (folder searchQuery) (name searchQuery) version language type
    or sendStatus in
  Ret (sendJson (FileBody file)).

Definition getFilesRoute (version language type : string) (searchQuery : FilesRequest)
    : Handler :=
  const files := getFiles (files_folder searchQuery) version language type or sendStatus in
  Ret (sendJson (FilesBody files)).

Definition getDefaultRoute (version language type : string) (searchQuery : FileRequest)
    : Handler :=
  const file := getDefaultFile (folder searchQuery) version language type or sendStatus in
  Ret (sendJson (FileBody file)).

Definition getIndexRoute (version language type : string) : Handler :=
  const index := getIndex version language type or sendStatus in
  Ret (sendJson (IndexBody index)).

Definition getRecommendedItemsRoute (language type : string) : Handler :=
  const data := getRecommendedItems language type or sendStatus in
  let data := pushPlaceholderIfEmpty data in
  Ret (sendJson (RecommendedItemsBody data)).

Definition getCategoriesRoute (version language type : string) : Handler :=
  const categories := getCategories version language type or sendStatus in
  Ret (sendJson (CategoriesBody categories)).

End Server.

(** ** [JSON.parse]

    The queue consumer hands the message text to ECMAScript's [JSON.parse].
    Texts are byte strings (the UTF-8 the message carries); a [\u] escape is
    written back as the UTF-8 of its code point.  [parse] returns [None]
    where [JSON.parse] throws a [SyntaxError]. *)

Module JSON.

#[local] Set Warnings "-register-all".

Inductive value :=
| JNull
| JBool (b : bool)
| JNumber (lexeme : string)
| JString (s : string)
| JArray (elements : list value)
| JObject (members : list (string * value)).

Definition code (c : ascii) : N := N_of_ascii c.

Definition is_char (c : ascii) (lit : string) : bool :=
  match lit with
  | String l EmptyString => Ascii.eqb c l
  | _ => false
  end.

Definition is_quote (c : ascii) : bool := (code c =? 34)%N.

Definition is_ws (c : ascii) : bool :=
  (code c =? 32)%N || (code c =? 9)%N || (code c =? 10)%N || (code c =? 13)%N.

Definition is_digit (c : ascii) : bool :=
  (48 <=? code c)%N && (code c <=? 57)%N.

Fixpoint skip_ws (cs : list ascii) : list ascii :=
  match cs with
  | c :: rest => if is_ws c then skip_ws rest else cs
  | [] => []
  end.

(** The longest prefix of digits, and what follows it. *)
Fixpoint digits (cs : list ascii) : list ascii * list ascii :=
  match cs with
  | c :: rest =>
      if is_digit c then let '(ds, rest') := digits rest in (c :: ds, rest')
      else ([], cs)
  | [] => ([], [])
  end.

Definition starts_with (prefix : string) (cs : list ascii) : option (list ascii) :=
  let p := list_ascii_of_string prefix in
  if bool_decide (take (length p) cs = p) then Some (drop (length p) cs) else None.

(** A number: an optional minus, then a single zero or a digit sequence
    with no leading zero, then an optional fraction (a dot and digits) and
    an optional exponent (e or E, an optional sign, digits). *)
Definition number (cs : list ascii) : option (list ascii * list ascii) :=
  let '(sign, cs) :=
    match cs with
    | c :: rest => if is_char c "-" then ([c], rest) else ([], cs)
    | [] => ([], cs)
    end in
  let int :=
    match cs with
    | c :: rest =>
        if is_char c "0" then Some ([c], rest)
        else if is_digit c then let '(ds, rest') := digits rest in Some (c :: ds, rest')
        else None
    | [] => None
    end in
  match int with
  | None => None
  | Some (int, cs) =>
      let frac :=
        match cs with
        | c :: rest =>
            if is_char c "." then
              match digits rest with
              | ([], _) => None
              | (ds, rest') => Some (c :: ds, rest')
              end
            else Some ([], cs)
        | [] => Some ([], cs)
        end in
      match frac with
      | None => None
      | Some (frac, cs) =>
          let exp :=
            match cs with
            | c :: rest =>
                if is_char c "e" || is_char c "E" then
                  let '(esign, rest) :=
                    match rest with
                    | s :: rest' =>
                        if is_char s "+" || is_char s "-" then ([s], rest') else ([], rest)
                    | [] => ([], rest)
                    end in
                  match digits rest with
                  | ([], _) => None
                  | (ds, rest') => Some (c :: esign ++ ds, rest')
                  end
                else Some ([], cs)
            | [] => Some ([], cs)
            end in
          match exp with
          | None => None
          | Some (exp, cs) => Some (sign ++ int ++ frac ++ exp, cs)
          end
      end
  end.

Definition hex (c : ascii) : option N :=
  let n := code c in
  if (48 <=? n)%N && (n <=? 57)%N then Some (n - 48)%N
  else if (65 <=? n)%N && (n <=? 70)%N then Some (n - 55)%N
  else if (97 <=? n)%N && (n <=? 102)%N then Some (n - 87)%N
  else None.

Definition hex4 (h1 h2 h3 h4 : ascii) : option N :=
  match hex h1, hex h2, hex h3, hex h4 with
  | Some a, Some b, Some c, Some d => Some (((a * 16 + b) * 16 + c) * 16 + d)%N
  | _, _, _, _ => None
  end.

Definition byte (n : N) : ascii := ascii_of_N (n mod 256).

(** UTF-8 of a code point (a lone surrogate is written like any other
    three-byte code point). *)
Definition utf8 (cp : N) : list ascii :=
  if (cp <? 128)%N then [byte cp]
  else if (cp <? 2048)%N then
    [byte (192 + cp / 64); byte (128 + cp mod 64)]
  else if (cp <? 65536)%N then
    [byte (224 + cp / 4096); byte (128 + (cp / 64) mod 64); byte (128 + cp mod 64)]
  else
    [byte (240 + cp / 262144); byte (128 + (cp / 4096) mod 64);
     byte (128 + (cp / 64) mod 64); byte (128 + cp mod 64)].

Definition is_high_surrogate (u : N) : bool := (55296 <=? u)%N && (u <=? 56319)%N.
Definition is_low_surrogate (u : N) : bool := (56320 <=? u)%N && (u <=? 57343)%N.

(** The characters of a string after its opening quote, up to the closing
    one. *)
Fixpoint string_body (cs : list ascii) : option (list ascii * list ascii) :=
  match cs with
  | [] => None
  | c :: rest =>
      if is_quote c then Some ([], rest)
      else if is_char c "\" then
        match rest with
        | [] => None
        | e :: rest =>
            let simple (b : N) :=
              match string_body rest with
              | Some (s, rest') => Some (byte b :: s, rest')
              | None => None
              end in
            if is_quote e then simple 34%N
            else if is_char e "\" then simple 92%N
            else if is_char e "/" then simple 47%N
            else if is_char e "b" then simple 8%N
            else if is_char e "f" then simple 12%N
            else if is_char e "n" then simple 10%N
            else if is_char e "r" then simple 13%N
            else if is_char e "t" then simple 9%N
            else if is_char e "u" then
              match rest with
              | h1 :: h2 :: h3 :: h4 :: rest =>
                  match hex4 h1 h2 h3 h4 with
                  | None => None
                  | Some u =>
                      let single :=
                        match string_body rest with
                        | Some (s, rest') => Some (utf8 u ++ s, rest')
                        | None => None
                        end in
                      match rest with
                      | b :: v :: l1 :: l2 :: l3 :: l4 :: rest2 =>
                          match hex4 l1 l2 l3 l4 with
                          | Some lo =>
                              if is_char b "\" && is_char v "u" && is_high_surrogate u
                                 && is_low_surrogate lo then
                                match string_body rest2 with
                                | Some (s, rest') =>
                                    Some (utf8 (65536 + (u - 55296) * 1024 + (lo - 56320))
                                            ++ s, rest')
                                | None => None
                                end
                              else single
                          | None => single
                          end
                      | _ => single
                      end
                  end
              | _ => None
              end
            else None
        end
      else if (code c <? 32)%N then None
      else
        match string_body rest with
        | Some (s, rest') => Some (c :: s, rest')
        | None => None
        end
  end.

Definition str (cs : list ascii) : string := string_of_list_ascii cs.

Fixpoint parse_value (fuel : nat) (cs : list ascii) : option (value * list ascii) :=
  match fuel with
  | O => None
  | S fuel =>
      match skip_ws cs with
      | [] => None
      | c :: rest =>
          if is_char c "{" then
            match skip_ws rest with
            | c' :: rest' =>
                if is_char c' "}" then Some (JObject [], rest')
                else parse_members fuel (c' :: rest')
            | [] => None
            end
          else if is_char c "[" then
            match skip_ws rest with
            | c' :: rest' =>
                if is_char c' "]" then Some (JArray [], rest')
                else parse_elements fuel (c' :: rest')
            | [] => None
            end
          else if is_quote c then
            match string_body rest with
            | Some (s, rest') => Some (JString (str s), rest')
            | None => None
            end
          else if is_char c "-" || is_digit c then
            match number (c :: rest) with
            | Some (lexeme, rest') => Some (JNumber (str lexeme), rest')
            | None => None
            end
          else
            match starts_with "true" (c :: rest),
                  starts_with "false" (c :: rest),
                  starts_with "null" (c :: rest) with
            | Some rest', _, _ => Some (JBool true, rest')
            | _, Some rest', _ => Some (JBool false, rest')
            | _, _, Some rest' => Some (JNull, rest')
            | _, _, _ => None
            end
      end
  end
with parse_elements (fuel : nat) (cs : list ascii) : option (value * list ascii) :=
  match fuel with
  | O => None
  | S fuel =>
      match parse_value fuel cs with
      | None => None
      | Some (v, rest) =>
          match skip_ws rest with
          | c :: rest' =>
              if is_char c "," then
                match parse_elements fuel rest' with
                | Some (JArray vs, rest'') => Some (JArray (v :: vs), rest'')
                | _ => None
                end
              else if is_char c "]" then Some (JArray [v], rest')
              else None
          | [] => None
          end
      end
  end
with parse_members (fuel : nat) (cs : list ascii) : option (value * list ascii) :=
  match fuel with
  | O => None
  | S fuel =>
      match skip_ws cs with
      | q :: rest =>
          if is_quote q then
            match string_body rest with
            | None => None
            | Some (key, rest) =>
                match skip_ws rest with
                | colon :: rest =>
                    if is_char colon ":" then
                      match parse_value fuel rest with
                      | None => None
                      | Some (v, rest) =>
                          match skip_ws rest with
                          | c :: rest' =>
                              if is_char c "," then
                                match parse_members fuel rest' with
                                | Some (JObject ms, rest'') =>
                                    Some (JObject ((str key, v) :: ms), rest'')
                                | _ => None
                                end
                              else if is_char c "}" then Some (JObject [(str key, v)], rest')
                              else None
                          | [] => None
                          end
                      end
                    else None
                | [] => None
                end
            end
          else None
      | [] => None
      end
  end.

Definition parse (text : string) : option value :=
  let cs := list_ascii_of_string text in
  match parse_value (2 * length cs + 2) cs with
  | Some (v, rest) =>
      match skip_ws rest with
      | [] => Some v
      | _ :: _ => None
      end
  | None => None
  end.

(** [v.key] for a key that is no built-in property of strings or arrays:
    the outer [None] is the [TypeError] of reading a property of [null],
    the inner [None] is [undefined].  When a key is repeated in an object
    text the last member wins. *)
Fixpoint lookup_member (key : string) (members : list (string * value)) : option value :=
  match members with
  | [] => None
  | (k, v) :: members =>
      match lookup_member key members with
      | Some v' => Some v'
      | None => if bool_decide (k = key) then Some v else None
      end
  end.

Definition property (key : string) (v : value) : option (option value) :=
  match v with
  | JNull => None
  | JObject members => Some (lookup_member key members)
  | _ => Some None
  end.

(** [x === lit] for a string literal [lit]. *)
Definition strict_equals_string (x : option value) (lit : string) : bool :=
  match x with
  | Some (JString s) => bool_decide (s = lit)
  | _ => false
  end.

(** Whether converting a parsed value to a string, as a template literal
    does, throws a [TypeError].  An object is converted by its [toString]
    method: a parsed object with a member of its own called "toString" hides
    the inherited method behind a value that cannot be called, and its
    [valueOf] does not yield a primitive either, so the conversion throws;
    any other object becomes "[object Object]".  An array is joined, which
    converts each element other than [null] in turn.  Primitives always
    convert. *)
Fixpoint to_string_throws (v : value) : bool :=
  match v with
  | JArray elements => existsb to_string_throws elements
  | JObject members =>
      match lookup_member "toString" members with
      | Some _ => true
      | None => false
      end
  | _ => false
  end.

(** Whether [x] can be interpolated into a template literal; [undefined]
    always can. *)
Definition interpolates (x : option value) : bool :=
  match x with
  | Some v => negb (to_string_throws v)
  | None => true
  end.

End JSON.

(** ** The deploy listener (the callback given to [channel.consume]) *)

Module Uplink.

(** A delivered message; [content] is [message.content.toString()]. *)
Record Message := {
  content : string;
  deliveryTag : Z
}.

Inductive Effect :=
| ack (message : Message)
| log (sender : option JSON.value) (type : string)
| exec (command : string).

Inductive Completion :=
| Returns
| ThrowsSyntaxError
| ThrowsTypeError.

(** The callback, for the host [process.platform]: the effects it performs,
    in order, and how it completes.  The [log] effect is the deploy notice;
    it records the [sender] interpolated into its text.  The text is built
    before [log] is called and before the script is run, so a sender that
    cannot be converted to a string ends the callback with a [TypeError]
    right after the acknowledgement. *)
Definition consumer (platform : string) (message : option Message)
    : list Effect * Completion :=
  match message with
  | Some message =>
      match JSON.parse (content message) with
      | None => ([], ThrowsSyntaxError)
      | Some messageContent =>
          match JSON.property "task" messageContent with
          | None => ([ack message], ThrowsTypeError)
          | Some task =>
              if JSON.strict_equals_string task "Deploy"
                 && bool_decide (platform = "linux") then
                match JSON.property "sender" messageContent with
                | None => ([ack message], ThrowsTypeError)
                | Some sender =>
                    if JSON.interpolates sender then
                      ([ack message; log sender "info"; exec "bash deploy.sh"], Returns)
                    else ([ack message], ThrowsTypeError)
                end
              else ([ack message], Returns)
          end
      end
  | None => ([], Returns)
  end.

Definition acknowledged (message : Message) (run : list Effect * Completion) : Prop :=
  ack message ∈ fst run.

Definition script_executed (run : list Effect * Completion) : Prop :=
  ∃ command, exec command ∈ fst run.

End Uplink.

(** ** The file store accessor *)

Module FileAccessor.

Import Server.

(** Modelled from the spec: the disk behind [./utils/file], which is not
    part of the sources at hand.  At a path it holds a file that reads as
    [content], or one whose read fails. *)
Inductive DiskFile :=
| Readable (content : string)
| Unreadable.

(** Modelled from the spec: [getFile] of [./utils/file], which is not part
    of the sources at hand.  The identity key
    (version, language, type, folder, name) resolves to a path on disk; the
    accessor returns the content found there, 404 when the path or file is
    missing and 500 when reading it fails. *)
Definition getFile (disk : gmap (string * string * string * string * string) DiskFile)
    (folder name version language type : string) : OrNumber DocumentationFile :=
  match disk !! (version, language, type, folder, name) with
  | Some (Readable content) => Data content
  | Some Unreadable => Number 500
  | None => Number 404
  end.

(** Modelled from the spec: the accessors a route handler calls, with
    [getFile] answered from the disk as above and the others, of which the
    spec says no more, by [others]. *)
Definition accessors (disk : gmap (string * string * string * string * string) DiskFile)
    (others : ∀ c, AccessorReply c) (c : AccessorCall) : AccessorReply c :=
  match c with
  | Server.getFile folder name version language type =>
      getFile disk folder name version language type
  | Server.getFiles folder version language type =>
      others (Server.getFiles folder version language type)
  | Server.getDefaultFile folder version language type =>
      others (Server.getDefaultFile folder version language type)
  | Server.getIndex version language type => others (Server.getIndex version language type)
  | Server.getRecommendedItems language type =>
      others (Server.getRecommendedItems language type)
  | Server.getCategories version language type =>
      others (Server.getCategories version language type)
  end.

End FileAccessor.

(** ** Sample data *)

Module Samples.

Import DocumentationStore.

Definition getStarted : IndexItem :=
  {| category := "Get_Started"; children := ["Introduction"; "Collaborating"] |}.

Definition community : IndexItem :=
  {| category := "Community"; children := ["Rules"] |}.

Definition welcome : RecommendedItem :=
  {| title := "Welcome"; anchor := "top"; item_category := "Get_Started"; id := 7;
     page := "Introduction"; time := 3; icon := "fa-door-open" |}.

Definition cached : State :=
  {| docIndex := [getStarted; community]; guideIndex := [community];
     recommendedDocItems := [welcome]; recommendedGuideItems := [];
     version := "v1"; language := "en-US" |}.

(** An index one of whose page names is the empty string. *)
Definition drafts : IndexItem :=
  {| category := "Drafts"; children := [""; "Roadmap"] |}.

Definition drafting : State :=
  {| docIndex := [getStarted; drafts]; guideIndex := [];
     recommendedDocItems := []; recommendedGuideItems := [];
     version := "v1"; language := "en-US" |}.

(** A network on which every fetch helper resolves to [false]. *)
Definition offline (c : FetchCall) : FetchReply c :=
  match c with
  | fetchDocumentationIndex _ _ _ => Sentinel false
  | fetchRecommendedItems _ _ => Sentinel false
  | fetchDocumentationRefresh _ _ => Sentinel false
  end.

(** A network on which every fetch helper succeeds with fresh data. *)
Definition online (c : FetchCall) : FetchReply c :=
  match c with
  | fetchDocumentationIndex _ _ _ => Payload {| index := [community] |}
  | fetchRecommendedItems _ _ => Payload {| recommended_items := [welcome] |}
  | fetchDocumentationRefresh _ _ =>
      Payload {| refresh_docIndex := [community]; refresh_guideIndex := [];
                 refresh_recommendedDocItems := []; refresh_recommendedGuideItems := [welcome] |}
  end.

(** The documentation API, answering every request with a bare 404, and
    answering with status 200 and an index that is empty. *)
Definition docsApi : string := "http://localhost:3001".

Definition notFound {T} (url : string) : Fetch.Outcome T :=
  Fetch.Resolves {| Fetch.status := 404; Fetch.json := None |}.

Definition emptyIndexServed (url : string) : Fetch.Outcome DocumentationIndexResponse :=
  Fetch.Resolves {| Fetch.status := 200; Fetch.json := Some {| index := [] |} |}.

(** File accessors of a server that has an index but no recommended
    items, and of one whose Guide index is missing. *)
Definition nothingRecommended (c : Server.AccessorCall) : Server.AccessorReply c :=
  match c with
  | Server.getFile _ _ _ _ _ => Server.Number 404
  | Server.getFiles _ _ _ _ => Server.Number 404
  | Server.getDefaultFile _ _ _ _ => Server.Number 404
  | Server.getIndex _ _ _ => Server.Data [getStarted]
  | Server.getRecommendedItems _ _ => Server.Data []
  | Server.getCategories _ _ _ => Server.Data []
  end.

Definition guideIndexMissing (c : Server.AccessorCall) : Server.AccessorReply c :=
  match c with
  | Server.getFile _ _ _ _ _ => Server.Number 404
  | Server.getFiles _ _ _ _ => Server.Number 404
  | Server.getDefaultFile _ _ _ _ => Server.Number 404
  | Server.getIndex _ _ type =>
      if bool_decide (type = "Guide") then Server.Number 404 else Server.Data [getStarted]
  | Server.getRecommendedItems _ _ => Server.Data [welcome]
  | Server.getCategories _ _ _ => Server.Data []
  end.

(** A disk holding one page. *)
Definition disk : gmap (string * string * string * string * string) FileAccessor.DiskFile :=
  {[ ("v1", "en-US", "Doc", "Get_Started", "Introduction")
       := FileAccessor.Readable "<h1>Introduction</h1>" ]}.

(** Queue messages: a deploy task, another task, and a text that is not
    JSON. *)
Definition quoted (s : string) : string :=
  String "034"%char (s +:+ String "034"%char EmptyString).

Definition deployTask : Uplink.Message :=
  {| Uplink.content :=
       "{" +:+ quoted "task" +:+ ":" +:+ quoted "Deploy" +:+ ","
           +:+ quoted "sender" +:+ ":" +:+ quoted "Bot" +:+ "}";
     Uplink.deliveryTag := 1 |}.

Definition restartTask : Uplink.Message :=
  {| Uplink.content :=
       "{" +:+ quoted "task" +:+ ":" +:+ quoted "Restart" +:+ ","
           +:+ quoted "sender" +:+ ":" +:+ quoted "Bot" +:+ "}";
     Uplink.deliveryTag := 2 |}.

Definition notJson : Uplink.Message :=
  {| Uplink.content := "Deploy"; Uplink.deliveryTag := 3 |}.

(** A deploy task whose sender is an object with a member called
    "toString". *)
Definition unprintableSender : Uplink.Message :=
  {| Uplink.content :=
       "{" +:+ quoted "task" +:+ ":" +:+ quoted "Deploy" +:+ ","
           +:+ quoted "sender" +:+ ":{" +:+ quoted "toString" +:+ ":0}}";
     Uplink.deliveryTag := 4 |}.

End Samples.

(** ** Deployment authentication ([docs/src/utils/middleware.ts]) *)

Module Middleware.

(** [s.split(sep)] for a separator of one character: the pieces between
    the separators, empty pieces included. *)
Fixpoint split (sep : ascii) (s : string) : list string :=
  match s with
  | EmptyString => [EmptyString]
  | String c rest =>
      if Ascii.eqb c sep then EmptyString :: split sep rest
      else
        match split sep rest with
        | piece :: pieces => String c piece :: pieces
        | [] => [String c EmptyString]
        end
  end.

(** Whether the character occurs in the string. *)
Fixpoint occurs (c : ascii) (s : string) : bool :=
  match s with
  | EmptyString => false
  | String c' rest => Ascii.eqb c' c || occurs c rest
  end.

(** What the middleware does with the request: answer with a bare status,
    or hand it on with [next()]. *)
Inductive Outcome :=
| sendStatus (code : Z)
| next.

(** [authorization] is [req.headers.authorization] and [DEPLOYMENT_KEY] is
    [process.env.DEPLOYMENT_KEY]; either may be [undefined]. *)
Definition deploymentAuthentication (DEPLOYMENT_KEY authorization : option string)
    : Outcome :=
  let password := authorization in
  match password with
  | Some p =>
      if falsy password || negb (bool_decide (split " " p !! 1%nat = DEPLOYMENT_KEY))
      then sendStatus 401
      else next
  | None => sendStatus 401
  end.

End Middleware.

(** ** Sessions of the documentation store *)

Module StoreSession.

Import DocumentationStore.

(** The actions of the store, as a user interface invokes them. *)
Inductive Operation :=
| doSetVersion (newVersion : string)
| doSetLanguage (newLanguage : string)
| doGetIndex (force : bool) (type : string)
| doGetRecommendedItems (force : bool) (type : string)
| doRefresh.

(** The store state after one action, run against the network [net]. *)
Definition after (net : ∀ c, FetchReply c) (op : Operation) (this : State) : State :=
  match op with
  | doSetVersion newVersion => snd (result net (setVersion newVersion this))
  | doSetLanguage newLanguage => snd (result net (setLanguage newLanguage this))
  | doGetIndex force type => snd (result net (getIndex force type this))
  | doGetRecommendedItems force type => snd (result net (getRecommendedItems force type this))
  | doRefresh => snd (result net (refresh this))
  end.

(** A session: actions run one after the other, each against the network as
    it answers at that moment. *)
Fixpoint session (steps : list (Operation * (∀ c, FetchReply c))) (this : State) : State :=
  match steps with
  | [] => this
  | (op, net) :: steps => session steps (after net op this)
  end.

(** The network of the store when its index fetch is the helper of
    [utils/fetch.ts]: that helper takes (version, language), so the third
    argument the store passes is dropped, as a surplus argument is in
    JavaScript.  The other two helpers are answered by [others]. *)
Definition helperNetwork (VITE_DOCS_API_BASE : string)
    (fetch : string → Fetch.Outcome DocumentationIndexResponse)
    (others : ∀ c, FetchReply c) (c : FetchCall) : FetchReply c :=
  match c with
  | fetchDocumentationIndex version language _ =>
      Fetch.fetchDocumentationIndex VITE_DOCS_API_BASE fetch version language
  | fetchRecommendedItems language type => others (fetchRecommendedItems language type)
  | fetchDocumentationRefresh version language =>
      others (fetchDocumentationRefresh version language)
  end.

End StoreSession.

(** ** Fetch helpers, continued ([frontend/src/utils/fetch.ts]) *)

Module FetchHelpers.

Import Fetch.

(** The request handed to [fetch]: the URL and the [method], [headers] and
    [body] of its options. *)
Record Request := {
  url : string;
  method : string;
  headers : list (string * string);
  body : option string
}.

(** What a page helper resolves to is a JavaScript value: a parsed JSON
    value, or [undefined] ([None]).  The [false] of its failure paths is
    [js_false]. *)
Definition js_false : option JSON.value := Some (JSON.JBool false).

(** The body [res.json({ "files": files })] of the server's files route, and
    the body [res.json({ "file": file })] of its file route, as
    [response.json()] reads them back. *)
Definition filesObject (files : list string) : JSON.value :=
  JSON.JObject [("files", JSON.JArray (JSON.JString <$> files))].

Definition fileObject (file : string) : JSON.value :=
  JSON.JObject [("file", JSON.JString file)].

Section Helpers.
Variable VITE_API_BASE : string.
Variable VITE_DOCS_API_BASE : string.

(** The login response of [customTypes], and
    [JSON.stringify({ "username": username, "password": password })]. *)
Variable UserDataResponse : Type.
Variable stringifyCredentials : string → string → string.

Definition fetchBase {T} (fetch : Request → Outcome T) (token : string) : bool :=
  match fetch {| url := VITE_API_BASE;
                 method := "GET";
                 headers := [("Authorization", "Bearer " +:+ token)];
                 body := None |} with
  | Resolves response => ok response
  | Throws => false
  end.

Definition fetchLogin (fetch : Request → Outcome UserDataResponse)
    (username password : string) : FetchResult UserDataResponse :=
  match fetch {| url := VITE_API_BASE +:+ "/login";
                 method := "POST";
                 headers := [("Content-Type", "application/json")];
                 body := Some (stringifyCredentials username password) |} with
  | Resolves response =>
      if ok response then
        match json response with
        | Some data => Payload data
        | None => Sentinel false
        end
      else Sentinel false
  | Throws => Sentinel false
  end.

(** The three page helpers.  [json response] is the outcome of
    [response.json()]: the parsed body, or [None] when it rejects.
    [(await response.json() as DocumentationFile).file] reads the property
    [file] of whatever was parsed; on [null] that read throws a [TypeError],
    which the [catch] of the helper turns into [false]. *)
Definition fetchDocumentationPage (fetch : string → Outcome JSON.value)
    (folder name version language : string) : option JSON.value :=
  match fetch (VITE_DOCS_API_BASE +:+ "/getFile/" +:+ version +:+ "/" +:+ language
               +:+ "?folder=" +:+ folder +:+ "&name=" +:+ name) with
  | Resolves response =>
      if ok response then
        match json response with
        | Some body =>
            match JSON.property "file" body with
            | Some file => file
            | None => js_false
            end
        | None => js_false
        end
      else if (status response =? 404)%Z then js_false
      else js_false
  | Throws => js_false
  end.

Definition fetchDocumentationPages (fetch : string → Outcome JSON.value)
    (folder version language : string) : option JSON.value :=
  match fetch (VITE_DOCS_API_BASE +:+ "/getFiles/" +:+ version +:+ "/" +:+ language
               +:+ "?folder=" +:+ folder) with
  | Resolves response =>
      if ok response then
        match json response with
        | Some body =>
            match JSON.property "file" body with
            | Some file => file
            | None => js_false
            end
        | None => js_false
        end
      else if (status response =? 404)%Z then js_false
      else js_false
  | Throws => js_false
  end.

Definition fetchDocumentationDefault (fetch : string → Outcome JSON.value)
    (folder version language : string) : option JSON.value :=
  match fetch (VITE_DOCS_API_BASE +:+ "/getDefault/" +:+ version +:+ "/" +:+ language
               +:+ "?folder=" +:+ folder) with
  | Resolves response =>
      if ok response then
        match json response with
        | Some body =>
            match JSON.property "file" body with
            | Some file => file
            | None => js_false
            end
        | None => js_false
        end
      else if (status response =? 404)%Z then js_false
      else js_false
  | Throws => js_false
  end.
End Helpers.

(** The outcome of a fetch from which a page helper returns the text [page]:
    a response with an ok status whose body could be parsed and has [page]
    as its [file]. *)
Definition delivers (outcome : Outcome JSON.value) (page : string) : Prop :=
  ∃ response body,
    outcome = Resolves response ∧ ok response = true ∧ json response = Some body
    ∧ JSON.property "file" body = Some (Some (JSON.JString page)).

End FetchHelpers.

(** ** The handlers of the server, by request *)

Module Routing.

Import Server.

(** A GET request as it reaches the handler of the accessor-backed route it
    matches, with its path parameters and query: the middleware registered
    in front of the handler (CORS, the API logger and, on the refresh route,
    the rate limiter) has passed it on.  A request that the rate limiter
    answers itself never gets here. *)
Inductive Request :=
| refreshRequest (version language : string)
| getFileRequest (version language type : string) (searchQuery : FileRequest)
| getFilesRequest (version language type : string) (searchQuery : FilesRequest)
| getDefaultRequest (version language type : string) (searchQuery : FileRequest)
| getIndexRequest (version language type : string)
| getRecommendedItemsRequest (language type : string)
| getCategoriesRequest (version language type : string).

(** The handler that runs on such a request. *)
Definition handle (request : Request) : Handler :=
  match request with
  | refreshRequest version language => refreshRoute version language
  | getFileRequest version language type searchQuery =>
      getFileRoute version language type searchQuery
  | getFilesRequest version language type searchQuery =>
      getFilesRoute version language type searchQuery
  | getDefaultRequest version language type searchQuery =>
      getDefaultRoute version language type searchQuery
  | getIndexRequest version language type => getIndexRoute version language type
  | getRecommendedItemsRequest language type => getRecommendedItemsRoute language type
  | getCategoriesRequest version language type => getCategoriesRoute version language type
  end.

(** The number an accessor returned, if it returned one. *)
Definition numeric (c : AccessorCall) : AccessorReply c → option Z :=
  match c with
  | getFile _ _ _ _ _ => λ r, match r with Number n => Some n | Data _ => None end
  | getFiles _ _ _ _ => λ r, match r with Number n => Some n | Data _ => None end
  | getDefaultFile _ _ _ _ => λ r, match r with Number n => Some n | Data _ => None end
  | getIndex _ _ _ => λ r, match r with Number n => Some n | Data _ => None end
  | getRecommendedItems _ _ => λ r, match r with Number n => Some n | Data _ => None end
  | getCategories _ _ _ => λ r, match r with Number n => Some n | Data _ => None end
  end.

End Routing.

(** ** Sample data, continued *)

Module MoreSamples.

(** The documentation API answering a page request, and answering a request
    for the pages of a folder with the body of the server's files route. *)
Definition pageServed (url : string) : Fetch.Outcome JSON.value :=
  Fetch.Resolves {| Fetch.status := 200;
                    Fetch.json := Some (FetchHelpers.fileObject "<h1>Introduction</h1>") |}.

Definition filesServed (url : string) : Fetch.Outcome JSON.value :=
  Fetch.Resolves {| Fetch.status := 200;
                    Fetch.json :=
                      Some (FetchHelpers.filesObject ["Introduction"; "Collaborating"]) |}.

(** An ok response whose body is the JSON text [null]. *)
Definition nullServed (url : string) : Fetch.Outcome JSON.value :=
  Fetch.Resolves {| Fetch.status := 200; Fetch.json := Some JSON.JNull |}.

(** The platform API accepting every session. *)
Definition sessionValid (request : FetchHelpers.Request) : Fetch.Outcome unit :=
  Fetch.Resolves {| Fetch.status := 204; Fetch.json := None |}.

End MoreSamples.

(** * Properties *)

(** ** First matches *)

Lemma first_match_None {A} (p : A → bool) (xs : list A) :
  first_match p xs = None ↔ ∀ x, x ∈ xs → p x = false.
Proof.
  unfold first_match. induction xs as [| y ys IH]; simpl.
  - split; [intros _ x Hx; inversion Hx | reflexivity].
  - destruct (p y) eqn:Hy; simpl.
    + split; [discriminate |]. intros H. specialize (H y (list_elem_of_here _ _)).
      congruence.
    + rewrite IH. split.
      * intros H x Hx. apply elem_of_cons in Hx as [-> | Hx]; auto.
      * intros H x Hx. apply H. now apply list_elem_of_further.
Qed.

Lemma first_match_Some {A} (p : A → bool) (xs : list A) (x : A) :
  first_match p xs = Some x ↔
  ∃ before after, xs = before ++ x :: after ∧ p x = true ∧ ∀ y, y ∈ before → p y = false.
Proof.
  unfold first_match. induction xs as [| y ys IH]; simpl.
  - split; [discriminate |]. intros (before & after & H & _). now destruct before.
  - destruct (p y) eqn:Hy; simpl.
    + split.
      * intros [= ->]. exists [], ys. repeat split; auto. intros z Hz. inversion Hz.
      * intros (before & after & H & Hx & Hb). destruct before as [| b before].
        -- simpl in H. congruence.
        -- simpl in H. injection H as -> _.
           specialize (Hb b (list_elem_of_here _ _)). congruence.
    + rewrite IH. split.
      * intros (before & after & -> & Hx & Hb). exists (y :: before), after.
        repeat split; auto. intros z Hz. apply elem_of_cons in Hz as [-> | Hz]; auto.
      * intros (before & after & H & Hx & Hb). destruct before as [| b before].
        -- simpl in H. injection H as -> _. congruence.
        -- simpl in H. injection H as -> ->. exists before, after.
           repeat split; auto. intros z Hz. apply Hb. now apply list_elem_of_further.
Qed.

Lemma filter_nonempty_elem (n : string) (xs : list string) :
  (0 <? length (List.filter (λ child, bool_decide (child = n)) xs))%nat = true ↔ n ∈ xs.
Proof.
  induction xs as [| x xs IH]; simpl.
  - split; [discriminate | intros H; inversion H].
  - destruct (bool_decide_reflect (x = n)) as [-> | Hne]; simpl.
    + split; [intros _; apply list_elem_of_here | reflexivity].
    + rewrite IH. split.
      * intros H. now apply list_elem_of_further.
      * intros H. apply elem_of_cons in H as [-> | H]; [congruence | assumption].
Qed.

(** ** The documentation store *)

Section StoreProperties.

Import DocumentationStore.

Variable net : ∀ c, FetchReply c.

(** What [getIndex] does, case by case. *)
Lemma run_getIndex (force : bool) (type : string) (this : State) :
  run net (getIndex force type this) =
  let key := indexKeyOf type in
  let call := fetchDocumentationIndex (version this) (language this) type in
  if (length (read_index key this) =? 0)%nat || force then
    match net call with
    | Sentinel _ => ((read_index key this, this), [call])
    | Payload data => ((index data, write_index key (index data) this), [call])
    end
  else ((read_index key this, this), []).
Proof.
  unfold getIndex, bindA, get, await, perform. simpl.
  destruct ((length (read_index (indexKeyOf type) this) =? 0)%nat || force); simpl.
  - destruct (net (fetchDocumentationIndex (version this) (language this) type));
      reflexivity.
  - reflexivity.
Qed.

Lemma run_getRecommendedItems (force : bool) (type : string) (this : State) :
  run net (getRecommendedItems force type this) =
  let key := recommendedKeyOf type in
  let call := fetchRecommendedItems (language this) type in
  if (length (read_recommended key this) =? 0)%nat || force then
    match net call with
    | Sentinel _ => ((read_recommended key this, this), [call])
    | Payload data =>
        ((recommended_items data, write_recommended key (recommended_items data) this),
         [call])
    end
  else ((read_recommended key this, this), []).
Proof.
  unfold getRecommendedItems, bindA, get, await, perform. simpl.
  destruct ((length (read_recommended (recommendedKeyOf type) this) =? 0)%nat || force);
    simpl.
  - destruct (net (fetchRecommendedItems (language this) type)); reflexivity.
  - reflexivity.
Qed.

Lemma run_refresh (this : State) :
  run net (refresh this) =
  let call := fetchDocumentationRefresh (version this) (language this) in
  match net call with
  | Sentinel _ => ((tt, this), [call])
  | Payload data =>
      ((tt, {| docIndex := refresh_docIndex data;
               guideIndex := refresh_guideIndex data;
               recommendedDocItems := refresh_recommendedDocItems data;
               recommendedGuideItems := refresh_recommendedGuideItems data;
               version := version this; language := language this |}), [call])
  end.
Proof.
  unfold refresh, bindA, get, await, perform. simpl.
  destruct (net (fetchDocumentationRefresh (version this) (language this)));
    reflexivity.
Qed.

(** C3: when the fetch helper resolves to a boolean sentinel, [refresh]
    returns with the whole store state as it was (none of the four cached
    collections is overwritten), and [getIndex] and [getRecommendedItems]
    return the array already cached in their slot, again with the store
    state as it was.  The actions are total functions of the store state
    and the helper's outcome: each of them returns, none throws. *)
Theorem failed_fetch_keeps_cache (this : State) :
  (∀ b, net (fetchDocumentationRefresh (version this) (language this)) = Sentinel b →
        result net (refresh this) = (tt, this))
  ∧ (∀ force type b,
        net (fetchDocumentationIndex (version this) (language this) type) = Sentinel b →
        result net (getIndex force type this) = (read_index (indexKeyOf type) this, this))
  ∧ (∀ force type b,
        net (fetchRecommendedItems (language this) type) = Sentinel b →
        result net (getRecommendedItems force type this)
        = (read_recommended (recommendedKeyOf type) this, this)).
Proof.
  unfold result. split; [| split].
  - intros b H. rewrite run_refresh. simpl. now rewrite H.
  - intros force type b H. rewrite run_getIndex. simpl. rewrite H.
    now destruct (_ || _).
  - intros force type b H. rewrite run_getRecommendedItems. simpl. rewrite H.
    now destruct (_ || _).
Qed.

(** C4: without [force], [getIndex] on a non-empty cached index is a
    finished program that returns the cached array: it makes no call at
    all.  With [force] it makes exactly one call, the index fetch, whatever
    the cache holds, and when that fetch succeeds the selected slot is
    overwritten with the fetched index, which is also returned. *)
Theorem getIndex_cache_and_force (type : string) (this : State) :
  (read_index (indexKeyOf type) this ≠ [] →
     getIndex false type this = Ret (read_index (indexKeyOf type) this, this))
  ∧ calls net (getIndex true type this)
    = [fetchDocumentationIndex (version this) (language this) type]
  ∧ (∀ data,
       net (fetchDocumentationIndex (version this) (language this) type) = Payload data →
       result net (getIndex true type this)
       = (index data, write_index (indexKeyOf type) (index data) this)
       ∧ read_index (indexKeyOf type) (snd (result net (getIndex true type this)))
         = index data).
Proof.
  split; [| split].
  - intros Hne. unfold getIndex, bindA, get. simpl.
    destruct (read_index (indexKeyOf type) this) eqn:E; [congruence |]. reflexivity.
  - unfold calls. rewrite run_getIndex. simpl. rewrite orb_true_r.
    now destruct (net _).
  - intros data H. unfold result. rewrite run_getIndex. simpl. rewrite orb_true_r, H.
    simpl. split; [reflexivity |]. now destruct (indexKeyOf type).
Qed.

(** C9: a type string other than exactly "Guide" selects the Doc storage
    slot in every store operation that takes a type: [getIndex] reads,
    returns and overwrites [docIndex], [getRecommendedItems] reads, returns
    and overwrites [recommendedDocItems], [validateFolder] and
    [getCategoryList] search [docIndex].  Every operation yields a result
    for such a type: none rejects it. *)
Theorem non_Guide_type_selects_Doc (type : string) (Htype : type ≠ "Guide") :
  (∀ force this,
     run net (getIndex force type this) =
     let call := fetchDocumentationIndex (version this) (language this) type in
     if (length (docIndex this) =? 0)%nat || force then
       match net call with
       | Sentinel _ => ((docIndex this, this), [call])
       | Payload data =>
           ((index data, write_index docIndexKey (index data) this), [call])
       end
     else ((docIndex this, this), []))
  ∧ (∀ force this,
     run net (getRecommendedItems force type this) =
     let call := fetchRecommendedItems (language this) type in
     if (length (recommendedDocItems this) =? 0)%nat || force then
       match net call with
       | Sentinel _ => ((recommendedDocItems this, this), [call])
       | Payload data =>
           ((recommended_items data,
             write_recommended recommendedDocItemsKey (recommended_items data) this),
            [call])
       end
     else ((recommendedDocItems this, this), []))
  ∧ (∀ folder this,
     validateFolder (Some folder) type this =
     if bool_decide (folder = "") then None
     else first_match (λ indexItem, bool_decide (category indexItem = folder))
            (docIndex this))
  ∧ (∀ categoryName this,
     getCategoryList type categoryName this =
     children <$> first_match (λ indexItem, bool_decide (category indexItem = categoryName))
                    (docIndex this)).
Proof.
  assert (Hi : indexKeyOf type = docIndexKey).
  { unfold indexKeyOf. now rewrite bool_decide_eq_false_2. }
  assert (Hr : recommendedKeyOf type = recommendedDocItemsKey).
  { unfold recommendedKeyOf. now rewrite bool_decide_eq_false_2. }
  repeat split.
  - intros force this. rewrite run_getIndex, Hi. reflexivity.
  - intros force this. rewrite run_getRecommendedItems, Hr. reflexivity.
  - intros folder this. unfold validateFolder. rewrite Hi. reflexivity.
  - intros categoryName this. unfold getCategoryList. rewrite Hi. reflexivity.
Qed.

End StoreProperties.

Lemma failed_fetch_keeps_cache_witness :
  result Samples.offline (DocumentationStore.refresh Samples.cached) = (tt, Samples.cached)
  ∧ result Samples.offline (DocumentationStore.getIndex true "Guide" Samples.cached)
    = ([Samples.community], Samples.cached)
  ∧ result Samples.offline (DocumentationStore.getRecommendedItems false "Guide" Samples.cached)
    = ([], Samples.cached).
Proof.
  destruct (failed_fetch_keeps_cache Samples.offline Samples.cached) as (H1 & H2 & H3).
  split; [| split].
  - apply (H1 false). reflexivity.
  - apply (H2 true "Guide" false). reflexivity.
  - apply (H3 false "Guide" false). reflexivity.
Defined.

Lemma getIndex_cache_and_force_witness :
  DocumentationStore.getIndex false "Doc" Samples.cached
  = Ret ([Samples.getStarted; Samples.community], Samples.cached)
  ∧ fst (result Samples.online (DocumentationStore.getIndex true "Doc" Samples.cached))
    = [Samples.community].
Proof.
  destruct (getIndex_cache_and_force Samples.online "Doc" Samples.cached) as (H1 & _ & H3).
  split.
  - apply H1. discriminate.
  - destruct (H3 {| index := [Samples.community] |}) as [H _]; [reflexivity |].
    rewrite H. reflexivity.
Defined.

Lemma non_Guide_type_selects_Doc_witness :
  DocumentationStore.getCategoryList "guide" "Community" Samples.cached = Some ["Rules"]
  ∧ DocumentationStore.validateFolder (Some "Get_Started") "" Samples.cached
    = Some Samples.getStarted.
Proof.
  split.
  - destruct (non_Guide_type_selects_Doc Samples.offline "guide") as (_ & _ & _ & H);
      [discriminate |].
    rewrite H. reflexivity.
  - destruct (non_Guide_type_selects_Doc Samples.offline "") as (_ & _ & H & _);
      [discriminate |].
    rewrite H. reflexivity.
Defined.

Section StoreLookups.

Import DocumentationStore.

(** The lookups, run on the sample store. *)
Example validatePage_known_page :
  validatePage (Some "Get_Started") (Some "Collaborating") "Doc" Samples.cached = true.
Proof. reflexivity. Qed.

Example validatePage_unknown_page :
  validatePage (Some "Get_Started") (Some "Rules") "Doc" Samples.cached = false.
Proof. reflexivity. Qed.

Example validatePage_undefined_folder :
  validatePage None (Some "Rules") "Doc" Samples.cached = false.
Proof. reflexivity. Qed.

Example getIndex_fills_empty_cache :
  run Samples.online (getIndex false "Guide" initial)
  = (([Samples.community], write_index guideIndexKey [Samples.community] initial),
     [fetchDocumentationIndex "v1" "en-US" "Guide"]).
Proof. reflexivity. Qed.

(** C10: [getCategoryList] returns [undefined] exactly when no entry of the
    selected cached index has the requested category, so in particular on
    an empty cache; when there is a matching entry it returns the children
    of the first one. *)
Theorem getCategoryList_undefined_or_children (type categoryName : string) (this : State) :
  (getCategoryList type categoryName this = None ↔
     ∀ item, item ∈ read_index (indexKeyOf type) this → category item ≠ categoryName)
  ∧ (read_index (indexKeyOf type) this = [] → getCategoryList type categoryName this = None)
  ∧ (∀ before target after,
       read_index (indexKeyOf type) this = before ++ target :: after →
       category target = categoryName →
       (∀ item, item ∈ before → category item ≠ categoryName) →
       getCategoryList type categoryName this = Some (children target))
  ∧ ((∃ item, item ∈ read_index (indexKeyOf type) this ∧ category item = categoryName) →
       ∃ target, target ∈ read_index (indexKeyOf type) this
                 ∧ category target = categoryName
                 ∧ getCategoryList type categoryName this = Some (children target)).
Proof.
  unfold getCategoryList.
  set (idx := read_index (indexKeyOf type) this).
  set (p := λ indexItem : IndexItem, bool_decide (category indexItem = categoryName)).
  assert (HNone : first_match p idx = None ↔ ∀ item, item ∈ idx → category item ≠ categoryName).
  { rewrite first_match_None. split; intros H item Hin.
    - apply H in Hin. unfold p in Hin. now apply bool_decide_eq_false in Hin.
    - unfold p. apply bool_decide_eq_false. now apply H. }
  split; [| split; [| split]].
  - rewrite <- HNone. clear HNone.
    destruct (first_match p idx); simpl; split; congruence.
  - intros ->. reflexivity.
  - intros before target after Hidx Hcat Hbefore.
    assert (H : first_match p idx = Some target).
    { apply first_match_Some. exists before, after. repeat split; auto.
      - unfold p. now apply bool_decide_eq_true.
      - intros y Hy. unfold p. apply bool_decide_eq_false. now apply Hbefore. }
    now rewrite H.
  - intros (item & Hin & Hcat).
    destruct (first_match p idx) as [target |] eqn:E.
    + apply first_match_Some in E as (before & after & Hidx & Hp & _).
      exists target. repeat split.
      * rewrite Hidx. apply elem_of_app. right. apply list_elem_of_here.
      * unfold p in Hp. now apply bool_decide_eq_true in Hp.
    + destruct HNone as [HNone _]. now apply (HNone eq_refl) in Hin.
Qed.

(** C5, as the store implements it: [validatePage] returns true exactly
    when folder and name are both given and non-empty and name appears in
    the children of the first entry, of the cached index selected by type,
    whose category equals folder.  It is a function of the store state: it
    calls no fetch helper. *)
Theorem validatePage_first_entry (folder name : option string) (type : string)
    (this : State) :
  validatePage folder name type this = true ↔
  ∃ f n before target after,
    folder = Some f ∧ name = Some n ∧ f ≠ "" ∧ n ≠ ""
    ∧ read_index (indexKeyOf type) this = before ++ target :: after
    ∧ category target = f
    ∧ (∀ item, item ∈ before → category item ≠ f)
    ∧ n ∈ children target.
Proof.
  unfold validatePage, validateFolder, falsy.
  set (idx := read_index (indexKeyOf type) this).
  split.
  - destruct folder as [f |]; [| discriminate].
    destruct name as [n |]; [| now rewrite orb_true_r].
    destruct (bool_decide_reflect (f = "")) as [| Hf]; [discriminate |].
    destruct (bool_decide_reflect (n = "")) as [| Hn]; [discriminate |]. simpl.
    destruct (first_match _ idx) as [target |] eqn:E; [| discriminate].
    intros H. apply filter_nonempty_elem in H.
    apply first_match_Some in E as (before & after & Hidx & Hp & Hbefore).
    exists f, n, before, target, after. repeat split; auto.
    + now apply bool_decide_eq_true in Hp.
    + intros item Hin. apply Hbefore in Hin. now apply bool_decide_eq_false in Hin.
  - intros (f & n & before & target & after & -> & -> & Hf & Hn & Hidx & Hcat & Hbefore & Hin).
    rewrite !bool_decide_eq_false_2 by assumption. simpl.
    assert (E : first_match (λ indexItem, bool_decide (category indexItem = f)) idx
                = Some target).
    { apply first_match_Some. exists before, after. repeat split; auto.
      - now apply bool_decide_eq_true.
      - intros y Hy. apply bool_decide_eq_false. now apply Hbefore. }
    rewrite E. now apply filter_nonempty_elem.
Qed.

(** C5 as stated fails for an empty page name: the only "Drafts" entry of
    the cached Doc index lists the empty string among its children, yet
    [validatePage] answers false. *)
Lemma validatePage_empty_name_counterexample :
  ¬ (validatePage (Some "Drafts") (Some "") "Doc" Samples.drafting = true ↔
     ∃ item, item ∈ read_index (indexKeyOf "Doc") Samples.drafting
             ∧ category item = "Drafts" ∧ "" ∈ children item).
Proof.
  intros [_ H].
  assert (Hfalse : validatePage (Some "Drafts") (Some "") "Doc" Samples.drafting = false)
    by reflexivity.
  rewrite H in Hfalse; [discriminate |].
  exists Samples.drafts. repeat split.
  - simpl. apply list_elem_of_further, list_elem_of_here.
  - simpl. apply list_elem_of_here.
Qed.

End StoreLookups.

Lemma getCategoryList_undefined_or_children_witness :
  DocumentationStore.getCategoryList "Doc" "Community" DocumentationStore.initial = None
  ∧ DocumentationStore.getCategoryList "Doc" "Community" Samples.cached = Some ["Rules"].
Proof.
  split.
  - destruct (getCategoryList_undefined_or_children "Doc" "Community"
                DocumentationStore.initial) as (_ & H & _).
    apply H. reflexivity.
  - destruct (getCategoryList_undefined_or_children "Doc" "Community" Samples.cached)
      as (_ & _ & H & _).
    apply (H [Samples.getStarted] Samples.community []); [reflexivity | reflexivity |].
    intros item Hin. apply list_elem_of_singleton in Hin as ->. discriminate.
Defined.

(** ** The fetch helpers *)

Section FetchProperties.

Import Fetch.

Variable VITE_DOCS_API_BASE : string.

Lemma fetchDocumentationIndex_cases fetch version language :
  fetchDocumentationIndex VITE_DOCS_API_BASE fetch version language =
  match fetch (VITE_DOCS_API_BASE +:+ "/getIndex/" +:+ version +:+ "/" +:+ language) with
  | Throws => Sentinel false
  | Resolves response =>
      if (status response =? 404)%Z then Payload {| index := [] |}
      else if ok response then
        match json response with
        | Some data => Payload data
        | None => Sentinel false
        end
      else Sentinel false
  end.
Proof.
  unfold fetchDocumentationIndex, ok.
  destruct (fetch _) as [| response]; [reflexivity |].
  destruct (Z.eqb_spec (status response) 404) as [-> | Hne]; reflexivity.
Qed.

Lemma fetchDocumentationCategories_cases fetch version language :
  fetchDocumentationCategories VITE_DOCS_API_BASE fetch version language =
  match fetch (VITE_DOCS_API_BASE +:+ "/getCategories/" +:+ version +:+ "/" +:+ language) with
  | Throws => Sentinel false
  | Resolves response =>
      if (status response =? 404)%Z then Payload {| categories := [] |}
      else if ok response then
        match json response with
        | Some data => Payload data
        | None => Sentinel false
        end
      else Sentinel false
  end.
Proof.
  unfold fetchDocumentationCategories, ok.
  destruct (fetch _) as [| response]; [reflexivity |].
  destruct (Z.eqb_spec (status response) 404) as [-> | Hne]; reflexivity.
Qed.

(** The branches a helper takes on a resolved response, for any empty
    result [empty] it substitutes on 404. *)
Lemma resolved_cases {T} (response : Response T) (empty : T) :
  let r := if (status response =? 404)%Z then Payload empty
           else if ok response then
             match json response with
             | Some data => Payload data
             | None => Sentinel false
             end
           else Sentinel false in
  (status response = 404%Z → r = Payload empty)
  ∧ (ok response = false → status response ≠ 404%Z → r = Sentinel false)
  ∧ (ok response = false → (r = Payload empty ↔ status response = 404%Z))
  ∧ (ok response = true →
       r = match json response with
           | Some data => Payload data
           | None => Sentinel false
           end).
Proof.
  cbv zeta. destruct (Z.eqb_spec (status response) 404) as [E | Hne].
  - split; [reflexivity |]. split; [congruence |]. split; [tauto |].
    unfold ok. rewrite E. discriminate.
  - split; [congruence |]. split; [now intros -> |]. split.
    + intros ->. split; [discriminate | congruence].
    + now intros ->.
Qed.

(** C8, as the helpers implement it: a response with status 404 yields the
    empty-but-successful result; every other non-ok response and every
    thrown fetch error yield the sentinel [false]; an ok response yields
    its parsed body as it is, whether or not that body is empty (and
    [false] when the body cannot be read).  So a result of [false] never
    comes from a 404, and among the requests that did not succeed the
    result is the empty one exactly for status 404. *)
Theorem fetch_404_is_empty_success
    (fetchIndex : string → Outcome DocumentationIndexResponse)
    (fetchCategories : string → Outcome DocumentationCategoriesResponse)
    (version language : string) :
  let indexOutcome :=
    fetchIndex (VITE_DOCS_API_BASE +:+ "/getIndex/" +:+ version +:+ "/" +:+ language) in
  let categoriesOutcome :=
    fetchCategories
      (VITE_DOCS_API_BASE +:+ "/getCategories/" +:+ version +:+ "/" +:+ language) in
  let indexResult :=
    fetchDocumentationIndex VITE_DOCS_API_BASE fetchIndex version language in
  let categoriesResult :=
    fetchDocumentationCategories VITE_DOCS_API_BASE fetchCategories version language in
  (∀ response, indexOutcome = Resolves response →
     (status response = 404%Z → indexResult = Payload {| index := [] |})
     ∧ (ok response = false → status response ≠ 404%Z → indexResult = Sentinel false)
     ∧ (ok response = false →
          (indexResult = Payload {| index := [] |} ↔ status response = 404%Z))
     ∧ (ok response = true →
          indexResult = match json response with
                        | Some data => Payload data
                        | None => Sentinel false
                        end))
  ∧ (indexOutcome = Throws → indexResult = Sentinel false)
  ∧ (∀ b, indexResult = Sentinel b →
       b = false
       ∧ ∀ response, indexOutcome = Resolves response → status response ≠ 404%Z)
  ∧ (∀ response, categoriesOutcome = Resolves response →
     (status response = 404%Z → categoriesResult = Payload {| categories := [] |})
     ∧ (ok response = false → status response ≠ 404%Z → categoriesResult = Sentinel false)
     ∧ (ok response = false →
          (categoriesResult = Payload {| categories := [] |} ↔ status response = 404%Z))
     ∧ (ok response = true →
          categoriesResult = match json response with
                             | Some data => Payload data
                             | None => Sentinel false
                             end))
  ∧ (categoriesOutcome = Throws → categoriesResult = Sentinel false)
  ∧ (∀ b, categoriesResult = Sentinel b →
       b = false
       ∧ ∀ response, categoriesOutcome = Resolves response → status response ≠ 404%Z).
Proof.
  cbv zeta.
  rewrite fetchDocumentationIndex_cases, fetchDocumentationCategories_cases.
  split; [| split; [| split; [| split; [| split]]]].
  - intros response ->. now apply resolved_cases.
  - intros ->. reflexivity.
  - intros b. destruct (fetchIndex _) as [| response].
    + intros [= <-]. split; [reflexivity | discriminate].
    + destruct (Z.eqb_spec (status response) 404) as [E | Hne]; [discriminate |].
      intros H. split.
      * destruct (ok response); [destruct (json response) |]; congruence.
      * intros r [= <-]. assumption.
  - intros response ->. now apply resolved_cases.
  - intros ->. reflexivity.
  - intros b. destruct (fetchCategories _) as [| response].
    + intros [= <-]. split; [reflexivity | discriminate].
    + destruct (Z.eqb_spec (status response) 404) as [E | Hne]; [discriminate |].
      intros H. split.
      * destruct (ok response); [destruct (json response) |]; congruence.
      * intros r [= <-]. assumption.
Qed.

End FetchProperties.

Lemma fetch_404_is_empty_success_witness :
  Fetch.fetchDocumentationIndex Samples.docsApi Samples.notFound "v1" "en-US"
  = Payload {| index := [] |}
  ∧ Fetch.fetchDocumentationCategories Samples.docsApi Samples.notFound "v1" "en-US"
    = Payload {| categories := [] |}.
Proof.
  destruct (fetch_404_is_empty_success Samples.docsApi Samples.notFound Samples.notFound
              "v1" "en-US") as (Hindex & _ & _ & Hcategories & _).
  split.
  - destruct (Hindex {| Fetch.status := 404; Fetch.json := None |}) as [H _];
      [reflexivity |].
    apply H. reflexivity.
  - destruct (Hcategories {| Fetch.status := 404; Fetch.json := None |}) as [H _];
      [reflexivity |].
    apply H. reflexivity.
Defined.

(** C8 as stated fails for a successful response that carries an empty index:
    the helper returns the same empty result although the status is 200. *)
Lemma fetchDocumentationIndex_empty_on_200_counterexample :
  ¬ (Fetch.fetchDocumentationIndex Samples.docsApi Samples.emptyIndexServed "v1" "en-US"
     = Payload {| index := [] |}
     ↔ ∃ response,
         Samples.emptyIndexServed
           (Samples.docsApi +:+ "/getIndex/" +:+ "v1" +:+ "/" +:+ "en-US")
         = Fetch.Resolves response
         ∧ Fetch.status response = 404%Z).
Proof.
  intros [H _]. destruct H as (response & Hres & Hstatus); [reflexivity |].
  unfold Samples.emptyIndexServed in Hres. injection Hres as <-. discriminate.
Qed.

(** ** The routes *)

Section RouteProperties.

Import Server.

Variable accessor : ∀ c, AccessorReply c.

Lemma run_refreshRoute (version language : string) :
  run accessor (refreshRoute version language) =
  let c1 := getIndex version language "Doc" in
  let c2 := getIndex version language "Guide" in
  let c3 := getRecommendedItems language "Doc" in
  let c4 := getRecommendedItems language "Guide" in
  match accessor c1 with
  | Number n => (sendStatus n, [c1])
  | Data docIndex =>
      match accessor c2 with
      | Number n => (sendStatus n, [c1; c2])
      | Data guideIndex =>
          match accessor c3 with
          | Number n => (sendStatus n, [c1; c2; c3])
          | Data recommendedDocItems =>
              match accessor c4 with
              | Number n => (sendStatus n, [c1; c2; c3; c4])
              | Data recommendedGuideItems =>
                  (sendJson (RefreshBody docIndex guideIndex
                               (pushPlaceholderIfEmpty recommendedDocItems)
                               (pushPlaceholderIfEmpty recommendedGuideItems)),
                   [c1; c2; c3; c4])
              end
          end
      end
  end.
Proof.
  unfold refreshRoute, orSendStatus, perform. simpl.
  destruct (accessor (getIndex version language "Doc")); [reflexivity |]. simpl.
  destruct (accessor (getIndex version language "Guide")); [reflexivity |]. simpl.
  destruct (accessor (getRecommendedItems language "Doc")); [reflexivity |]. simpl.
  destruct (accessor (getRecommendedItems language "Guide")); reflexivity.
Qed.

Lemma run_getRecommendedItemsRoute (language type : string) :
  run accessor (getRecommendedItemsRoute language type) =
  match accessor (getRecommendedItems language type) with
  | Number n => (sendStatus n, [getRecommendedItems language type])
  | Data data =>
      (sendJson (RecommendedItemsBody (pushPlaceholderIfEmpty data)),
       [getRecommendedItems language type])
  end.
Proof.
  unfold getRecommendedItemsRoute, orSendStatus, perform. simpl.
  destruct (accessor (getRecommendedItems language type)); reflexivity.
Qed.

Lemma pushPlaceholderIfEmpty_nonempty (items : list RecommendedItem) :
  pushPlaceholderIfEmpty items ≠ [].
Proof. destruct items; discriminate. Qed.

(** C7: the refresh handler asks for the Doc index, the Guide index, the
    Doc recommended items and the Guide recommended items, in that order.
    The first numeric result is sent as a bare status code and the calls
    stop there; the combined JSON object is sent when, and only when, all
    four results are data. *)
Theorem refreshRoute_short_circuits (version language : string) :
  let c1 := getIndex version language "Doc" in
  let c2 := getIndex version language "Guide" in
  let c3 := getRecommendedItems language "Doc" in
  let c4 := getRecommendedItems language "Guide" in
  let handled := run accessor (refreshRoute version language) in
  (∀ n, accessor c1 = Number n → handled = (sendStatus n, [c1]))
  ∧ (∀ docIndex n,
       accessor c1 = Data docIndex → accessor c2 = Number n →
       handled = (sendStatus n, [c1; c2]))
  ∧ (∀ docIndex guideIndex n,
       accessor c1 = Data docIndex → accessor c2 = Data guideIndex →
       accessor c3 = Number n →
       handled = (sendStatus n, [c1; c2; c3]))
  ∧ (∀ docIndex guideIndex recommendedDocItems n,
       accessor c1 = Data docIndex → accessor c2 = Data guideIndex →
       accessor c3 = Data recommendedDocItems → accessor c4 = Number n →
       handled = (sendStatus n, [c1; c2; c3; c4]))
  ∧ (∀ docIndex guideIndex recommendedDocItems recommendedGuideItems,
       accessor c1 = Data docIndex → accessor c2 = Data guideIndex →
       accessor c3 = Data recommendedDocItems →
       accessor c4 = Data recommendedGuideItems →
       handled = (sendJson (RefreshBody docIndex guideIndex
                              (pushPlaceholderIfEmpty recommendedDocItems)
                              (pushPlaceholderIfEmpty recommendedGuideItems)),
                  [c1; c2; c3; c4]))
  ∧ (∀ body, fst handled = sendJson body →
       ∃ docIndex guideIndex recommendedDocItems recommendedGuideItems,
         accessor c1 = Data docIndex ∧ accessor c2 = Data guideIndex
         ∧ accessor c3 = Data recommendedDocItems
         ∧ accessor c4 = Data recommendedGuideItems).
Proof.
  cbv zeta. rewrite run_refreshRoute. cbv zeta.
  split; [| split; [| split; [| split; [| split]]]].
  - now intros n ->.
  - now intros docIndex n -> ->.
  - now intros docIndex guideIndex n -> -> ->.
  - now intros docIndex guideIndex recommendedDocItems n -> -> -> ->.
  - now intros docIndex guideIndex recommendedDocItems recommendedGuideItems -> -> -> ->.
  - intros body.
    destruct (accessor (getIndex version language "Doc")) as [| d1]; [discriminate |].
    destruct (accessor (getIndex version language "Guide")) as [| d2]; [discriminate |].
    destruct (accessor (getRecommendedItems language "Doc")) as [| d3]; [discriminate |].
    destruct (accessor (getRecommendedItems language "Guide")) as [| d4];
      [discriminate |].
    intros _. now exists d1, d2, d3, d4.
Qed.

(** C2: a recommended-items list in a JSON response is never empty.  On
    the recommended-items route and on the refresh route alike, a list the
    accessor returned empty is sent as the one-element list holding the
    placeholder, whose id is 1 and whose title is "None_Available". *)
Theorem recommended_items_never_empty :
  (∀ language type body,
     result accessor (getRecommendedItemsRoute language type) = sendJson body →
     ∃ items, body = RecommendedItemsBody items ∧ items ≠ []
              ∧ (accessor (getRecommendedItems language type) = Data [] →
                 items = [placeholder]))
  ∧ (∀ language type,
       accessor (getRecommendedItems language type) = Data [] →
       result accessor (getRecommendedItemsRoute language type)
       = sendJson (RecommendedItemsBody [placeholder]))
  ∧ (∀ version language body,
       result accessor (refreshRoute version language) = sendJson body →
       ∃ docIndex guideIndex recommendedDocItems recommendedGuideItems,
         body = RefreshBody docIndex guideIndex recommendedDocItems recommendedGuideItems
         ∧ recommendedDocItems ≠ [] ∧ recommendedGuideItems ≠ []
         ∧ (accessor (getRecommendedItems language "Doc") = Data [] →
            recommendedDocItems = [placeholder])
         ∧ (accessor (getRecommendedItems language "Guide") = Data [] →
            recommendedGuideItems = [placeholder]))
  ∧ id placeholder = 1%Z ∧ title placeholder = "None_Available".
Proof.
  unfold result. split; [| split; [| split; [| split]]]; try reflexivity.
  - intros language type body. rewrite run_getRecommendedItemsRoute.
    destruct (accessor (getRecommendedItems language type)) as [| data];
      [discriminate |].
    intros [= <-]. exists (pushPlaceholderIfEmpty data).
    split; [reflexivity |]. split; [apply pushPlaceholderIfEmpty_nonempty |].
    now intros [= ->].
  - intros language type H. rewrite run_getRecommendedItemsRoute, H. reflexivity.
  - intros version language body. rewrite run_refreshRoute. cbv zeta.
    destruct (accessor (getIndex version language "Doc")) as [| d1]; [discriminate |].
    destruct (accessor (getIndex version language "Guide")) as [| d2]; [discriminate |].
    destruct (accessor (getRecommendedItems language "Doc")) as [| d3]; [discriminate |].
    destruct (accessor (getRecommendedItems language "Guide")) as [| d4];
      [discriminate |].
    intros [= <-].
    exists d1, d2, (pushPlaceholderIfEmpty d3), (pushPlaceholderIfEmpty d4).
    split; [reflexivity |].
    split; [apply pushPlaceholderIfEmpty_nonempty |].
    split; [apply pushPlaceholderIfEmpty_nonempty |].
    split; now intros [= ->].
Qed.

End RouteProperties.

Lemma refreshRoute_short_circuits_witness :
  run Samples.guideIndexMissing (Server.refreshRoute "v1" "en-US")
  = (Server.sendStatus 404,
     [Server.getIndex "v1" "en-US" "Doc"; Server.getIndex "v1" "en-US" "Guide"]).
Proof.
  destruct (refreshRoute_short_circuits Samples.guideIndexMissing "v1" "en-US")
    as (_ & H & _).
  apply (H [Samples.getStarted] 404%Z); reflexivity.
Defined.

Lemma recommended_items_never_empty_witness :
  result Samples.nothingRecommended (Server.getRecommendedItemsRoute "en-US" "Doc")
  = Server.sendJson (Server.RecommendedItemsBody [Server.placeholder]).
Proof.
  destruct (recommended_items_never_empty Samples.nothingRecommended) as (_ & H & _).
  apply H. reflexivity.
Defined.

Section FileRouteProperties.

Import Server.

Variable disk : gmap (string * string * string * string * string) FileAccessor.DiskFile.
Variable others : ∀ c, AccessorReply c.

(** C1: for a key whose file exists on disk with some content, [getFile]
    returns that content and the route answers with the JSON object
    holding it as [file]; for a key with no file, [getFile] returns 404 and
    the route sends 404 as a bare status code.  Either way the route makes
    the one accessor call. *)
Theorem getFile_content_or_404 (folder name version language type : string) :
  let call := getFile folder name version language type in
  let handled :=
    run (FileAccessor.accessors disk others)
        (getFileRoute version language type {| Server.folder := folder; Server.name := name |}) in
  (∀ content,
     disk !! (version, language, type, folder, name) = Some (FileAccessor.Readable content) →
     FileAccessor.getFile disk folder name version language type = Data content
     ∧ handled = (sendJson (FileBody content), [call]))
  ∧ (disk !! (version, language, type, folder, name) = None →
     FileAccessor.getFile disk folder name version language type = Number 404
     ∧ handled = (sendStatus 404, [call])).
Proof.
  cbv zeta. unfold getFileRoute, orSendStatus, perform, FileAccessor.accessors,
    FileAccessor.getFile. simpl.
  split.
  - intros content ->. split; reflexivity.
  - intros ->. split; reflexivity.
Qed.

End FileRouteProperties.

Lemma getFile_content_or_404_witness :
  result (FileAccessor.accessors Samples.disk Samples.nothingRecommended)
    (Server.getFileRoute "v1" "en-US" "Doc"
       {| Server.folder := "Get_Started"; Server.name := "Introduction" |})
  = Server.sendJson (Server.FileBody "<h1>Introduction</h1>")
  ∧ result (FileAccessor.accessors Samples.disk Samples.nothingRecommended)
      (Server.getFileRoute "v1" "en-US" "Doc"
         {| Server.folder := "Get_Started"; Server.name := "Missing" |})
    = Server.sendStatus 404.
Proof.
  unfold result. split.
  - destruct (getFile_content_or_404 Samples.disk Samples.nothingRecommended
                "Get_Started" "Introduction" "v1" "en-US" "Doc") as [H _].
    destruct (H "<h1>Introduction</h1>") as [_ ->]; [| reflexivity].
    unfold Samples.disk. apply lookup_singleton_eq.
  - destruct (getFile_content_or_404 Samples.disk Samples.nothingRecommended
                "Get_Started" "Missing" "v1" "en-US" "Doc") as [_ H].
    destruct H as [_ ->]; [| reflexivity].
    unfold Samples.disk. apply lookup_singleton_ne. discriminate.
Defined.

(** ** The deploy listener *)

Section ConsumerProperties.

Import Uplink.

(** The callback, run on the sample messages. *)
Example consumer_deploy_on_linux :
  consumer "linux" (Some Samples.deployTask)
  = ([ack Samples.deployTask; log (Some (JSON.JString "Bot")) "info"; exec "bash deploy.sh"],
     Returns).
Proof. vm_compute. reflexivity. Qed.

Example consumer_deploy_elsewhere :
  consumer "win32" (Some Samples.deployTask) = ([ack Samples.deployTask], Returns).
Proof. vm_compute. reflexivity. Qed.

Example consumer_other_task :
  consumer "linux" (Some Samples.restartTask) = ([ack Samples.restartTask], Returns).
Proof. vm_compute. reflexivity. Qed.

Example consumer_cancelled : consumer "linux" None = ([], Returns).
Proof. reflexivity. Qed.

Example consumer_unprintable_sender :
  consumer "linux" (Some Samples.unprintableSender)
  = ([ack Samples.unprintableSender], ThrowsTypeError).
Proof. vm_compute. reflexivity. Qed.


Lemma strict_equals_string_true (x : option JSON.value) (lit : string) :
  JSON.strict_equals_string x lit = true ↔ x = Some (JSON.JString lit).
Proof.
  unfold JSON.strict_equals_string. destruct x as [[| | | s | |] |];
    try (split; discriminate).
  rewrite bool_decide_eq_true. split; [now intros -> | now intros [= ->]].
Qed.

(** The run in which the acknowledgement is the only effect: nothing was
    executed, so the conditions for the script must not all hold. *)
Ltac ack_only Hno :=
  split; [apply list_elem_of_here |];
  split; [reflexivity |];
  split; [| split];
  [ split;
    [ intros [command H]; now apply Hno in H
    | intros (? & ? & ? & ? & ?); congruence ]
  | intros command H; now apply Hno in H
  | intros _; split; [apply list_elem_of_here |];
    intros [command H]; now apply Hno in H ].

(** C6, as the consumer implements it.  A delivered message whose content
    is valid JSON is acknowledged, before anything else is done with it and
    whatever its task is; the deployment script, and only that command, is
    executed exactly when the task field of the parsed message is the
    string "Deploy", the host platform is linux and the sender of the
    message can be converted to a string for the deploy notice, which is
    built before the script is run.  A message with another task is
    acknowledged and runs no script.  A delivered message whose content is
    not valid JSON makes [JSON.parse] throw: it is not acknowledged and
    nothing else is done. *)
Theorem consumer_acks_parsed_message (platform : string) (message : Message) :
  let handled := consumer platform (Some message) in
  (∀ messageContent, JSON.parse (content message) = Some messageContent →
     acknowledged message handled
     ∧ head (fst handled) = Some (ack message)
     ∧ (script_executed handled ↔
          JSON.property "task" messageContent = Some (Some (JSON.JString "Deploy"))
          ∧ platform = "linux"
          ∧ ∃ sender, JSON.property "sender" messageContent = Some sender
                      ∧ JSON.interpolates sender = true)
     ∧ (∀ command, exec command ∈ fst handled → command = "bash deploy.sh")
     ∧ (JSON.property "task" messageContent ≠ Some (Some (JSON.JString "Deploy")) →
          acknowledged message handled ∧ ¬ script_executed handled))
  ∧ (JSON.parse (content message) = None →
       handled = ([], ThrowsSyntaxError)
       ∧ ¬ acknowledged message handled ∧ ¬ script_executed handled).
Proof.
  cbv zeta. unfold acknowledged, script_executed, consumer. split.
  - intros messageContent Hparse. rewrite Hparse.
    assert (Hno : ∀ command, exec command ∈ [ack message] → False).
    { intros command H. apply list_elem_of_singleton in H. discriminate. }
    destruct (JSON.property "task" messageContent) as [task |] eqn:Etask.
    + destruct (JSON.strict_equals_string task "Deploy") eqn:Edeploy; simpl.
      * apply strict_equals_string_true in Edeploy as ->.
        destruct (bool_decide_reflect (platform = "linux")) as [-> | Hplatform];
          [| simpl; ack_only Hno].
        assert (Esender : ∃ sender, JSON.property "sender" messageContent = Some sender).
        { destruct messageContent; simpl in *; try discriminate; eauto. }
        destruct Esender as [sender Esender]. rewrite Esender. simpl.
        destruct (JSON.interpolates sender) eqn:Einterpolates;
          [| simpl; ack_only Hno].
        split; [apply list_elem_of_here |]. split; [reflexivity |].
        split; [| split].
        -- split; [intros _; repeat split; eauto |]. intros _. exists "bash deploy.sh".
           apply list_elem_of_further, list_elem_of_further, list_elem_of_here.
        -- intros command H.
           apply elem_of_cons in H as [H | H]; [discriminate |].
           apply elem_of_cons in H as [H | H]; [discriminate |].
           apply list_elem_of_singleton in H. now injection H.
        -- intros H. now contradiction H.
      * assert (Hne : task ≠ Some (JSON.JString "Deploy")).
        { intros H. apply strict_equals_string_true in H. congruence. }
        ack_only Hno.
    + simpl. ack_only Hno.
  - intros ->. simpl. split; [reflexivity |].
    split; [intros H; inversion H | intros [command H]; inversion H].
Qed.

(** C6 as stated fails for a delivered message whose content is not JSON:
    [JSON.parse] throws before the acknowledgement is reached. *)
Lemma consumer_not_json_counterexample :
  consumer "linux" (Some Samples.notJson) = ([], ThrowsSyntaxError)
  ∧ ¬ acknowledged Samples.notJson (consumer "linux" (Some Samples.notJson)).
Proof.
  assert (H : consumer "linux" (Some Samples.notJson) = ([], ThrowsSyntaxError))
    by (vm_compute; reflexivity).
  split; [exact H |]. unfold acknowledged. rewrite H. simpl. intros Hin. inversion Hin.
Qed.

End ConsumerProperties.

Lemma consumer_acks_parsed_message_witness :
  fst (Uplink.consumer "linux" (Some Samples.deployTask))
    !! 0%nat = Some (Uplink.ack Samples.deployTask)
  ∧ Uplink.script_executed (Uplink.consumer "linux" (Some Samples.deployTask))
  ∧ ¬ Uplink.script_executed (Uplink.consumer "linux" (Some Samples.restartTask))
  ∧ ¬ Uplink.script_executed (Uplink.consumer "linux" (Some Samples.unprintableSender))
  ∧ Uplink.consumer "linux" (Some Samples.notJson) = ([], Uplink.ThrowsSyntaxError).
Proof.
  destruct (consumer_acks_parsed_message "linux" Samples.deployTask) as [Hdeploy _].
  destruct (Hdeploy
              (JSON.JObject [("task", JSON.JString "Deploy"); ("sender", JSON.JString "Bot")]))
    as (_ & Hfirst & Hscript & _); [vm_compute; reflexivity |].
  destruct (consumer_acks_parsed_message "linux" Samples.restartTask) as [Hrestart _].
  destruct (Hrestart
              (JSON.JObject [("task", JSON.JString "Restart"); ("sender", JSON.JString "Bot")]))
    as (_ & _ & _ & _ & Hother); [vm_compute; reflexivity |].
  destruct (consumer_acks_parsed_message "linux" Samples.unprintableSender)
    as [Hunprintable _].
  destruct (Hunprintable
              (JSON.JObject
                 [("task", JSON.JString "Deploy");
                  ("sender", JSON.JObject [("toString", JSON.JNumber "0")])]))
    as (_ & _ & Hthrows & _); [vm_compute; reflexivity |].
  destruct (consumer_acks_parsed_message "linux" Samples.notJson) as [_ Hbad].
  split; [| split; [| split; [| split]]].
  - destruct (fst (Uplink.consumer "linux" (Some Samples.deployTask))); exact Hfirst.
  - apply Hscript. split; [reflexivity |]. split; [reflexivity |].
    exists (Some (JSON.JString "Bot")). split; reflexivity.
  - apply Hother. discriminate.
  - intros H. apply Hthrows in H as (_ & _ & sender & Hsender & Hinterpolates).
    vm_compute in Hsender. injection Hsender as <-. discriminate.
  - apply Hbad. vm_compute. reflexivity.
Defined.

(** * Further properties of the code *)

(** ** Deployment authentication *)

Section MiddlewareProperties.

Import Middleware.

Lemma split_without_separator (sep : ascii) (s : string) :
  occurs sep s = false → split sep s = [s].
Proof.
  induction s as [| c s IH]; simpl; [reflexivity |].
  intros H. apply orb_false_elim in H as [Hc Hs].
  rewrite Hc, (IH Hs). reflexivity.
Qed.

Lemma split_at_first_separator (sep : ascii) (a b : string) :
  occurs sep a = false → split sep (a +:+ String sep b) = a :: split sep b.
Proof.
  induction a as [| c a IH]; simpl.
  - intros _. now rewrite Ascii.eqb_refl.
  - intros H. apply orb_false_elim in H as [Hc Ha].
    rewrite Hc. fold (a +:+ String sep b). now rewrite (IH Ha).
Qed.

Lemma split_pieces_without_separator (sep : ascii) (s piece : string) :
  piece ∈ split sep s → occurs sep piece = false.
Proof.
  revert piece. induction s as [| c s IH]; simpl; intros piece Hin.
  - apply list_elem_of_singleton in Hin as ->. reflexivity.
  - destruct (Ascii.eqb c sep) eqn:Hc.
    + apply elem_of_cons in Hin as [-> | Hin]; [reflexivity | now apply IH].
    + destruct (split sep s) as [| p ps] eqn:E.
      * apply list_elem_of_singleton in Hin as ->. simpl. now rewrite Hc.
      * apply elem_of_cons in Hin as [-> | Hin].
        -- simpl. rewrite Hc. apply IH, list_elem_of_here.
        -- apply IH. now apply list_elem_of_further.
Qed.

Lemma append_empty (s : string) : s +:+ EmptyString = s.
Proof.
  induction s as [| c s IH]; [reflexivity |].
  change (String c (s +:+ EmptyString) = String c s). now f_equal.
Qed.

Lemma split_second_piece (sep : ascii) (a b : string) :
  occurs sep a = false → occurs sep b = false →
  ∀ rest, (rest = EmptyString ∨ ∃ tail, rest = String sep tail) →
  split sep (a +:+ String sep (b +:+ rest)) !! 1%nat = Some b.
Proof.
  intros Ha Hb rest Hrest. rewrite split_at_first_separator by assumption.
  destruct Hrest as [-> | [tail ->]].
  - rewrite append_empty, split_without_separator by assumption. reflexivity.
  - rewrite split_at_first_separator by assumption. reflexivity.
Qed.

(** X1: with the deployment key set, a header made of a scheme and a token
    (neither containing a space), with or without further
    space-separated text after the token, is let through exactly when the
    token equals the key.  The scheme itself is never looked at. *)
Theorem deploymentAuthentication_second_token_decides
    (key scheme token rest : string)
    (Hscheme : occurs " " scheme = false) (Htoken : occurs " " token = false)
    (Hrest : rest = EmptyString ∨ ∃ tail, rest = String " " tail) :
  deploymentAuthentication (Some key) (Some (scheme +:+ String " " (token +:+ rest))) = next
  ↔ token = key.
Proof.
  unfold deploymentAuthentication, falsy.
  rewrite (split_second_piece " " scheme token Hscheme Htoken rest Hrest).
  assert (Hne : scheme +:+ String " " (token +:+ rest) ≠ "").
  { destruct scheme; discriminate. }
  rewrite (bool_decide_eq_false_2 _ Hne). simpl.
  destruct (bool_decide_reflect (Some token = Some key)) as [E | E]; simpl.
  - split; [intros _; congruence | reflexivity].
  - split; [discriminate | intros ->; now contradiction E].
Qed.

(** X2: what is always refused.  A request without an authorization
    header, or with an empty one, is answered 401 whatever the deployment
    key is, also when no key is configured; with a key configured, a header
    of a single word (no space) is answered 401; and a configured key that
    contains a space can never be presented: every request is answered
    401. *)
Theorem deploymentAuthentication_refusals :
  (∀ DEPLOYMENT_KEY,
     deploymentAuthentication DEPLOYMENT_KEY None = sendStatus 401
     ∧ deploymentAuthentication DEPLOYMENT_KEY (Some "") = sendStatus 401)
  ∧ (∀ key word, occurs " " word = false →
       deploymentAuthentication (Some key) (Some word) = sendStatus 401)
  ∧ (∀ key authorization, occurs " " key = true →
       deploymentAuthentication (Some key) authorization = sendStatus 401).
Proof.
  split; [| split].
  - intros DEPLOYMENT_KEY. split; reflexivity.
  - intros key word Hword. unfold deploymentAuthentication.
    destruct (falsy (Some word)); [reflexivity |].
    now rewrite split_without_separator.
  - intros key authorization Hkey.
    unfold deploymentAuthentication. destruct authorization as [p |]; [| reflexivity].
    destruct (falsy (Some p)); [reflexivity |]. simpl.
    destruct (bool_decide_reflect (split " " p !! 1%nat = Some key)) as [E | E];
      [| reflexivity].
    apply list_elem_of_lookup_2, split_pieces_without_separator in E. congruence.
Qed.

(** X3: when no deployment key is configured, the comparison is between two
    [undefined] values for a header without a space: exactly the non-empty
    headers that contain no space are let through. *)
Theorem deploymentAuthentication_unset_key_admits_single_token (p : string) :
  deploymentAuthentication None (Some p) = next ↔ p ≠ "" ∧ occurs " " p = false.
Proof.
  unfold deploymentAuthentication, falsy.
  destruct (bool_decide_reflect (p = "")) as [-> | Hne]; simpl.
  - split; [discriminate | intros [H _]; now contradiction H].
  - destruct (occurs " " p) eqn:Hsp.
    + assert (E : ∃ piece, split " " p !! 1%nat = Some piece).
      { clear Hne. induction p as [| c p IH]; [discriminate |]. simpl in *.
        destruct (Ascii.eqb c " ") eqn:Hc.
        - destruct p; simpl; [eauto |]. destruct (Ascii.eqb a " "); [eauto |].
          destruct (split " " p); eauto.
        - simpl in Hsp. destruct (IH Hsp) as [piece Hp].
          destruct (split " " p) as [| q qs]; [discriminate |]. eauto. }
      destruct E as [piece ->]. simpl.
      split; [discriminate | intros [_ H]; discriminate].
    + rewrite split_without_separator by assumption. simpl.
      split; [intros _; now split | reflexivity].
Qed.

End MiddlewareProperties.

(** [split] on sample headers. *)
Example split_two_tokens : Middleware.split " " "Bearer s3cret" = ["Bearer"; "s3cret"].
Proof. reflexivity. Qed.

Example split_keeps_empty_pieces : Middleware.split " " " a  b " = [""; "a"; ""; "b"; ""].
Proof. reflexivity. Qed.

Lemma deploymentAuthentication_second_token_decides_witness :
  Middleware.deploymentAuthentication (Some "s3cret") (Some "Bearer s3cret") = Middleware.next
  ∧ Middleware.deploymentAuthentication (Some "s3cret") (Some "Basic s3cret trailing")
    = Middleware.next.
Proof.
  split.
  - apply (deploymentAuthentication_second_token_decides "s3cret" "Bearer" "s3cret" "");
      [reflexivity | reflexivity | now left | reflexivity].
  - apply (deploymentAuthentication_second_token_decides "s3cret" "Basic" "s3cret" " trailing");
      [reflexivity | reflexivity | right; now exists "trailing" | reflexivity].
Defined.

Lemma deploymentAuthentication_refusals_witness :
  Middleware.deploymentAuthentication (Some "two words") (Some "Bearer two words")
  = Middleware.sendStatus 401
  ∧ Middleware.deploymentAuthentication (Some "s3cret") (Some "s3cret")
    = Middleware.sendStatus 401.
Proof.
  destruct deploymentAuthentication_refusals as (_ & Hword & Hkey).
  split; [apply Hkey | apply Hword]; reflexivity.
Defined.

Lemma deploymentAuthentication_unset_key_admits_single_token_witness :
  Middleware.deploymentAuthentication None (Some "anything") = Middleware.next.
Proof.
  apply (deploymentAuthentication_unset_key_admits_single_token "anything").
  split; [discriminate | reflexivity].
Defined.

(** ** The documentation store, continued *)

Section StoreCaching.

Import DocumentationStore.

Variable net : ∀ c, FetchReply c.

Lemma write_index_same (key : IndexKey) (this : State) :
  write_index key (read_index key this) this = this.
Proof. destruct this, key; reflexivity. Qed.

Lemma read_write_index (key : IndexKey) (v : list IndexItem) (this : State) :
  read_index key (write_index key v this) = v.
Proof. destruct key; reflexivity. Qed.

Lemma read_write_recommended (key : RecommendedKey) (v : list RecommendedItem)
    (this : State) :
  read_recommended key (write_recommended key v this) = v.
Proof. destruct key; reflexivity. Qed.

Lemma length_zero_nil {A} (l : list A) : (length l =? 0)%nat = true ↔ l = [].
Proof. destruct l; simpl; split; congruence. Qed.

Lemma getIndex_state (force : bool) (type : string) (this : State) :
  snd (result net (getIndex force type this)) = this
  ∨ ∃ data,
      net (fetchDocumentationIndex (version this) (language this) type) = Payload data
      ∧ snd (result net (getIndex force type this))
        = write_index (indexKeyOf type) (index data) this.
Proof.
  unfold result. rewrite run_getIndex. cbv zeta.
  destruct (_ || force); [| now left].
  destruct (net _) as [b | data] eqn:E; [now left | right]. now exists data.
Qed.

Lemma getRecommendedItems_state (force : bool) (type : string) (this : State) :
  snd (result net (getRecommendedItems force type this)) = this
  ∨ ∃ data,
      net (fetchRecommendedItems (language this) type) = Payload data
      ∧ snd (result net (getRecommendedItems force type this))
        = write_recommended (recommendedKeyOf type) (recommended_items data) this.
Proof.
  unfold result. rewrite run_getRecommendedItems. cbv zeta.
  destruct (_ || force); [| now left].
  destruct (net _) as [b | data] eqn:E; [now left | right]. now exists data.
Qed.

(** X4: [getRecommendedItems] caches like [getIndex]: without [force], a
    non-empty cached list is returned by a finished program that makes no
    call; with [force] exactly one call is made, the recommended-items fetch
    for the store's language and the given type, and on success the fetched
    list replaces the selected slot and is returned. *)
Theorem getRecommendedItems_cache_and_force (type : string) (this : State) :
  (read_recommended (recommendedKeyOf type) this ≠ [] →
     getRecommendedItems false type this
     = Ret (read_recommended (recommendedKeyOf type) this, this))
  ∧ calls net (getRecommendedItems true type this)
    = [fetchRecommendedItems (language this) type]
  ∧ (∀ data,
       net (fetchRecommendedItems (language this) type) = Payload data →
       result net (getRecommendedItems true type this)
       = (recommended_items data,
          write_recommended (recommendedKeyOf type) (recommended_items data) this)).
Proof.
  split; [| split].
  - intros Hne. unfold getRecommendedItems, bindA, get. simpl.
    destruct (read_recommended (recommendedKeyOf type) this) eqn:E; [congruence |].
    reflexivity.
  - unfold calls. rewrite run_getRecommendedItems. simpl. rewrite orb_true_r.
    now destruct (net _).
  - intros data H. unfold result. rewrite run_getRecommendedItems. simpl.
    now rewrite orb_true_r, H.
Qed.

(** X5: [getIndex] touches nothing but the index slot its type selects: the
    other index, both recommended lists, the version and the language are
    as before, whatever the network answers.  [getRecommendedItems] likewise
    leaves both indices, the other recommended list, the version and the
    language as they were. *)
Theorem getters_touch_only_their_slot (force : bool) (type : string) (this : State) :
  let afterIndex := snd (result net (getIndex force type this)) in
  let afterRecommended := snd (result net (getRecommendedItems force type this)) in
  (∀ key, key ≠ indexKeyOf type → read_index key afterIndex = read_index key this)
  ∧ recommendedDocItems afterIndex = recommendedDocItems this
  ∧ recommendedGuideItems afterIndex = recommendedGuideItems this
  ∧ version afterIndex = version this ∧ language afterIndex = language this
  ∧ (∀ key, key ≠ recommendedKeyOf type →
       read_recommended key afterRecommended = read_recommended key this)
  ∧ docIndex afterRecommended = docIndex this
  ∧ guideIndex afterRecommended = guideIndex this
  ∧ version afterRecommended = version this ∧ language afterRecommended = language this.
Proof.
  cbv zeta.
  destruct (getIndex_state force type this) as [-> | (di & _ & ->)];
    destruct (getRecommendedItems_state force type this) as [-> | (dr & _ & ->)];
    repeat split; try reflexivity;
    try (intros key Hkey; destruct key, (indexKeyOf type); simpl; congruence);
    try (intros key Hkey; destruct key, (recommendedKeyOf type); simpl; congruence);
    try (destruct (indexKeyOf type); reflexivity);
    try (destruct (recommendedKeyOf type); reflexivity).
Qed.

(** X6: an empty slot is fetched for even without [force], and an empty
    answer is not remembered: when that fetch fails or returns an empty
    index the slot is still empty, so the next [getIndex] without [force]
    performs the same fetch again. *)
Theorem getIndex_empty_slot_always_fetches (net' : ∀ c, FetchReply c)
    (type : string) (this : State)
    (Hempty : read_index (indexKeyOf type) this = []) :
  let call := fetchDocumentationIndex (version this) (language this) type in
  calls net (getIndex false type this) = [call]
  ∧ ((∃ b, net call = Sentinel b) ∨ (∃ data, net call = Payload data ∧ index data = []) →
       snd (result net (getIndex false type this)) = this
       ∧ calls net' (getIndex false type (snd (result net (getIndex false type this))))
         = [call]).
Proof.
  cbv zeta.
  assert (Hcalls : ∀ n, calls n (getIndex false type this)
                        = [fetchDocumentationIndex (version this) (language this) type]).
  { intros n. unfold calls. rewrite (run_getIndex n). cbv zeta. rewrite Hempty. simpl.
    now destruct (n _). }
  split; [apply Hcalls |].
  intros Hanswer.
  assert (Hsame : snd (result net (getIndex false type this)) = this).
  { unfold result. rewrite run_getIndex. cbv zeta. rewrite Hempty. simpl.
    destruct Hanswer as [[b ->] | (data & -> & Hdata)]; [reflexivity |].
    simpl. rewrite Hdata, <- Hempty. apply write_index_same. }
  rewrite Hsame. split; [reflexivity | apply Hcalls].
Qed.

(** X7: a successful fetch of a non-empty index is remembered: after a
    [getIndex] that fetched (forced, or on an empty slot) and received a
    non-empty index, [getIndex] without [force] for the same type returns
    that index from the cache and makes no call, on any network. *)
Theorem getIndex_fetched_then_cached (force : bool) (type : string) (this : State)
    (data : DocumentationIndexResponse)
    (Hfetch : force = true ∨ read_index (indexKeyOf type) this = [])
    (Hanswer : net (fetchDocumentationIndex (version this) (language this) type)
               = Payload data)
    (Hdata : index data ≠ []) :
  let this' := snd (result net (getIndex force type this)) in
  fst (result net (getIndex force type this)) = index data
  ∧ getIndex false type this' = Ret (index data, this').
Proof.
  cbv zeta. unfold result. rewrite run_getIndex. cbv zeta.
  assert (Hcond : (length (read_index (indexKeyOf type) this) =? 0)%nat || force = true).
  { destruct Hfetch as [-> | ->]; [apply orb_true_r | reflexivity]. }
  rewrite Hcond, Hanswer. simpl. split; [reflexivity |].
  unfold getIndex, bindA, get. simpl. rewrite read_write_index.
  destruct (index data) eqn:E; [congruence |]. reflexivity.
Qed.

(** X8: a successful [refresh] makes one call, replaces all four cached
    collections by those of the response and keeps version and language;
    afterwards [getIndex] and [getRecommendedItems] without [force] serve
    every collection that arrived non-empty from the cache: they return the
    refreshed array and make no call. *)
Theorem refresh_success_fills_cache (this : State) (data : DocumentationRefreshResponse)
    (Hanswer : net (fetchDocumentationRefresh (version this) (language this))
               = Payload data) :
  let this' := snd (result net (refresh this)) in
  calls net (refresh this) = [fetchDocumentationRefresh (version this) (language this)]
  ∧ this' = {| docIndex := refresh_docIndex data;
               guideIndex := refresh_guideIndex data;
               recommendedDocItems := refresh_recommendedDocItems data;
               recommendedGuideItems := refresh_recommendedGuideItems data;
               version := version this; language := language this |}
  ∧ (refresh_docIndex data ≠ [] →
       ∀ type, type ≠ "Guide" →
       getIndex false type this' = Ret (refresh_docIndex data, this'))
  ∧ (refresh_guideIndex data ≠ [] →
       getIndex false "Guide" this' = Ret (refresh_guideIndex data, this'))
  ∧ (refresh_recommendedDocItems data ≠ [] →
       ∀ type, type ≠ "Guide" →
       getRecommendedItems false type this' = Ret (refresh_recommendedDocItems data, this'))
  ∧ (refresh_recommendedGuideItems data ≠ [] →
       getRecommendedItems false "Guide" this'
       = Ret (refresh_recommendedGuideItems data, this')).
Proof.
  cbv zeta. unfold calls, result. rewrite run_refresh. cbv zeta. rewrite Hanswer. simpl.
  split; [reflexivity |]. split; [reflexivity |].
  split; [| split; [| split]].
  - intros Hne type Htype. unfold getIndex, bindA, get, indexKeyOf. simpl.
    rewrite (bool_decide_eq_false_2 _ Htype). simpl.
    destruct (refresh_docIndex data); [congruence | reflexivity].
  - intros Hne. unfold getIndex, bindA, get. simpl.
    destruct (refresh_guideIndex data); [congruence | reflexivity].
  - intros Hne type Htype. unfold getRecommendedItems, bindA, get, recommendedKeyOf. simpl.
    rewrite (bool_decide_eq_false_2 _ Htype). simpl.
    destruct (refresh_recommendedDocItems data); [congruence | reflexivity].
  - intros Hne. unfold getRecommendedItems, bindA, get. simpl.
    destruct (refresh_recommendedGuideItems data); [congruence | reflexivity].
Qed.

End StoreCaching.

Lemma getRecommendedItems_cache_and_force_witness :
  DocumentationStore.getRecommendedItems false "Doc" Samples.cached
  = Ret ([Samples.welcome], Samples.cached)
  ∧ fst (result Samples.online
           (DocumentationStore.getRecommendedItems true "Guide" Samples.cached))
    = [Samples.welcome].
Proof.
  destruct (getRecommendedItems_cache_and_force Samples.online "Doc" Samples.cached)
    as (H1 & _).
  destruct (getRecommendedItems_cache_and_force Samples.online "Guide" Samples.cached)
    as (_ & _ & H3).
  split.
  - apply H1. discriminate.
  - rewrite (H3 {| recommended_items := [Samples.welcome] |}); reflexivity.
Defined.

Lemma getters_touch_only_their_slot_witness :
  DocumentationStore.guideIndex
    (snd (result Samples.online (DocumentationStore.getIndex true "Doc" Samples.cached)))
  = [Samples.community].
Proof.
  destruct (getters_touch_only_their_slot Samples.online true "Doc" Samples.cached)
    as (H & _).
  apply (H DocumentationStore.guideIndexKey). discriminate.
Defined.

Lemma getIndex_empty_slot_always_fetches_witness :
  calls Samples.offline (DocumentationStore.getIndex false "Doc" DocumentationStore.initial)
  = [DocumentationStore.fetchDocumentationIndex "v1" "en-US" "Doc"]
  ∧ calls Samples.online
      (DocumentationStore.getIndex false "Doc"
         (snd (result Samples.offline
                 (DocumentationStore.getIndex false "Doc" DocumentationStore.initial))))
    = [DocumentationStore.fetchDocumentationIndex "v1" "en-US" "Doc"].
Proof.
  destruct (getIndex_empty_slot_always_fetches Samples.offline Samples.online "Doc"
              DocumentationStore.initial) as (H1 & H2); [reflexivity |].
  split; [exact H1 |]. apply H2. left. now exists false.
Defined.

Lemma getIndex_fetched_then_cached_witness :
  DocumentationStore.getIndex false "Guide"
    (snd (result Samples.online (DocumentationStore.getIndex true "Guide" Samples.cached)))
  = Ret ([Samples.community],
         snd (result Samples.online (DocumentationStore.getIndex true "Guide" Samples.cached))).
Proof.
  apply (getIndex_fetched_then_cached Samples.online true "Guide" Samples.cached
           {| index := [Samples.community] |}); [now left | reflexivity | discriminate].
Defined.

Lemma refresh_success_fills_cache_witness :
  DocumentationStore.getIndex false "Doc"
    (snd (result Samples.online (DocumentationStore.refresh Samples.cached)))
  = Ret ([Samples.community],
         snd (result Samples.online (DocumentationStore.refresh Samples.cached))).
Proof.
  destruct (refresh_success_fills_cache Samples.online Samples.cached
              {| refresh_docIndex := [Samples.community]; refresh_guideIndex := [];
                 refresh_recommendedDocItems := [];
                 refresh_recommendedGuideItems := [Samples.welcome] |})
    as (_ & _ & H & _); [reflexivity |].
  apply H; discriminate.
Defined.

Section StoreSessions.

Import DocumentationStore StoreSession.

Lemma after_version_language (net : ∀ c, FetchReply c) (op : Operation) (this : State) :
  (version (after net op this) = version this ∨ version (after net op this) = "v1")
  ∧ (language (after net op this) = language this
     ∨ language (after net op this) = "en-US").
Proof.
  destruct op as [v | l | force type | force type |]; simpl.
  - unfold setVersion, result. destruct (bool_decide_reflect (v ∈ ["v1"])) as [Hin | Hin];
      simpl; [| now split; left].
    apply list_elem_of_singleton in Hin as ->. split; [now right | now left].
  - unfold setLanguage, result.
    destruct (bool_decide_reflect (l ∈ ["en-US"])) as [Hin | Hin];
      simpl; [| now split; left].
    apply list_elem_of_singleton in Hin as ->. split; [now left | now right].
  - destruct (getters_touch_only_their_slot net force type this)
      as (_ & _ & _ & -> & -> & _). now split; left.
  - destruct (getters_touch_only_their_slot net force type this)
      as (_ & _ & _ & _ & _ & _ & _ & _ & -> & ->). now split; left.
  - unfold result. rewrite run_refresh. cbv zeta. destruct (net _); now split; left.
Qed.

(** X9: whatever actions run, in whatever order and whatever the network
    answers, the version of the store is either the one it started with or
    "v1", and its language the one it started with or "en-US"; a store that
    starts from its defaults therefore always has version "v1" and language
    "en-US".  In particular [setVersion] and [setLanguage] with a value
    outside their allow-list leave the whole state as it is. *)
Theorem session_version_and_language
    (steps : list (Operation * (∀ c, FetchReply c))) (this : State) :
  (version (session steps this) = version this ∨ version (session steps this) = "v1")
  ∧ (language (session steps this) = language this
     ∨ language (session steps this) = "en-US")
  ∧ (version (session steps initial) = "v1" ∧ language (session steps initial) = "en-US")
  ∧ (∀ net newVersion, newVersion ≠ "v1" → after net (doSetVersion newVersion) this = this)
  ∧ (∀ net newLanguage,
       newLanguage ≠ "en-US" → after net (doSetLanguage newLanguage) this = this).
Proof.
  assert (Hgen : ∀ steps this,
    (version (session steps this) = version this ∨ version (session steps this) = "v1")
    ∧ (language (session steps this) = language this
       ∨ language (session steps this) = "en-US")).
  { clear. intros steps. induction steps as [| [op net] steps IH]; intros this; simpl.
    - now split; left.
    - destruct (IH (after net op this)) as [Hv Hl].
      destruct (after_version_language net op this) as [Hv' Hl'].
      split.
      + destruct Hv as [-> | ->]; [exact Hv' | now right].
      + destruct Hl as [-> | ->]; [exact Hl' | now right]. }
  destruct (Hgen steps this) as [Hv Hl].
  split; [exact Hv |]. split; [exact Hl |]. split; [| split].
  - destruct (Hgen steps initial) as [Hv0 Hl0]. simpl in Hv0, Hl0.
    split; [now destruct Hv0 | now destruct Hl0].
  - intros net v Hv'. simpl. unfold setVersion, result.
    rewrite bool_decide_eq_false_2; [reflexivity |].
    intros Hin. now apply list_elem_of_singleton in Hin.
  - intros net l Hl'. simpl. unfold setLanguage, result.
    rewrite bool_decide_eq_false_2; [reflexivity |].
    intros Hin. now apply list_elem_of_singleton in Hin.
Qed.

End StoreSessions.

Lemma session_version_and_language_witness :
  StoreSession.after Samples.online (StoreSession.doSetVersion "v2") Samples.cached
  = Samples.cached.
Proof.
  destruct (session_version_and_language [] Samples.cached) as (_ & _ & _ & H & _).
  apply H. discriminate.
Defined.

Section StoreLookupsContinued.

Import DocumentationStore.

(** X10: [validateFolder] answers with an entry only for a non-empty folder
    name, and then with an entry of the index selected by type whose
    category is that name; it answers [undefined] exactly when the folder is
    missing or empty or no entry of that index has the category. *)
Theorem validateFolder_sound_and_complete (folder : option string) (type : string)
    (this : State) :
  (∀ item, validateFolder folder type this = Some item →
     ∃ f, folder = Some f ∧ f ≠ "" ∧ item ∈ read_index (indexKeyOf type) this
          ∧ category item = f)
  ∧ (validateFolder folder type this = None ↔
       falsy folder = true
       ∨ ∃ f, folder = Some f
              ∧ ∀ item, item ∈ read_index (indexKeyOf type) this → category item ≠ f).
Proof.
  unfold validateFolder, falsy. destruct folder as [f |].
  - destruct (bool_decide_reflect (f = "")) as [-> | Hf].
    + split; [discriminate |]. split; [now left | reflexivity].
    + split.
      * intros item H. apply first_match_Some in H as (before & after & Hidx & Hp & _).
        exists f. repeat split; auto.
        -- rewrite Hidx. apply elem_of_app. right. apply list_elem_of_here.
        -- now apply bool_decide_eq_true in Hp.
      * rewrite first_match_None. split.
        -- intros H. right. exists f. split; [reflexivity |]. intros item Hin.
           apply H in Hin. now apply bool_decide_eq_false in Hin.
        -- intros [H | (f' & [= <-] & H)]; [discriminate |].
           intros item Hin. apply bool_decide_eq_false. now apply H.
  - split; [discriminate |]. split; [now left | reflexivity].
Qed.

(** X11: the three lookups agree.  For a non-empty folder and page name,
    [validatePage] is true exactly when [getCategoryList] for that folder
    returns a list that contains the name; and whenever [validateFolder]
    finds an entry, [getCategoryList] returns exactly the children of that
    entry. *)
Theorem validatePage_agrees_with_getCategoryList (f n type : string) (this : State)
    (Hf : f ≠ "") (Hn : n ≠ "") :
  (validatePage (Some f) (Some n) type this = true ↔
     ∃ pages, getCategoryList type f this = Some pages ∧ n ∈ pages)
  ∧ (∀ item, validateFolder (Some f) type this = Some item →
       getCategoryList type f this = Some (children item)).
Proof.
  unfold validatePage, validateFolder, getCategoryList, falsy.
  rewrite !bool_decide_eq_false_2 by assumption. simpl.
  destruct (first_match _ (read_index (indexKeyOf type) this)) as [target |]; simpl.
  - split.
    + rewrite filter_nonempty_elem. split.
      * intros H. now exists (children target).
      * now intros (pages & [= <-] & H).
    + now intros item [= ->].
  - split; [| discriminate]. split; [discriminate | now intros (pages & H & _)].
Qed.

End StoreLookupsContinued.

Lemma validatePage_agrees_with_getCategoryList_witness :
  DocumentationStore.validatePage (Some "Get_Started") (Some "Collaborating") "Doc"
    Samples.cached = true.
Proof.
  apply (validatePage_agrees_with_getCategoryList "Get_Started" "Collaborating" "Doc"
           Samples.cached); [discriminate | discriminate |].
  exists ["Introduction"; "Collaborating"]. split; [reflexivity |].
  apply list_elem_of_further, list_elem_of_here.
Defined.

Lemma validateFolder_sound_and_complete_witness :
  DocumentationStore.validateFolder (Some "Guides") "Doc" Samples.cached = None.
Proof.
  apply (validateFolder_sound_and_complete (Some "Guides") "Doc" Samples.cached).
  right. exists "Guides". split; [reflexivity |].
  intros item Hin. simpl in Hin.
  apply elem_of_cons in Hin as [-> | Hin]; [discriminate |].
  apply list_elem_of_singleton in Hin as ->. discriminate.
Defined.

Section StoreGuide.

Import DocumentationStore.

Variable net : ∀ c, FetchReply c.

(** X12: the type "Guide" selects the Guide slots in every store operation
    that takes a type: [getIndex] reads, returns and overwrites
    [guideIndex], [getRecommendedItems] reads, returns and overwrites
    [recommendedGuideItems], and the three lookups search [guideIndex]; the
    Doc collections play no part. *)
Theorem Guide_type_selects_Guide :
  (∀ force this,
     run net (getIndex force "Guide" this) =
     let call := fetchDocumentationIndex (version this) (language this) "Guide" in
     if (length (guideIndex this) =? 0)%nat || force then
       match net call with
       | Sentinel _ => ((guideIndex this, this), [call])
       | Payload data =>
           ((index data, write_index guideIndexKey (index data) this), [call])
       end
     else ((guideIndex this, this), []))
  ∧ (∀ force this,
     run net (getRecommendedItems force "Guide" this) =
     let call := fetchRecommendedItems (language this) "Guide" in
     if (length (recommendedGuideItems this) =? 0)%nat || force then
       match net call with
       | Sentinel _ => ((recommendedGuideItems this, this), [call])
       | Payload data =>
           ((recommended_items data,
             write_recommended recommendedGuideItemsKey (recommended_items data) this),
            [call])
       end
     else ((recommendedGuideItems this, this), []))
  ∧ (∀ folder name this docs recommendedDocs,
       let other := {| docIndex := docs; guideIndex := guideIndex this;
                       recommendedDocItems := recommendedDocs;
                       recommendedGuideItems := recommendedGuideItems this;
                       version := version this; language := language this |} in
       validateFolder folder "Guide" other = validateFolder folder "Guide" this
       ∧ validatePage folder name "Guide" other = validatePage folder name "Guide" this
       ∧ ∀ categoryName,
           getCategoryList "Guide" categoryName other
           = getCategoryList "Guide" categoryName this).
Proof.
  split; [| split].
  - intros force this. rewrite run_getIndex. reflexivity.
  - intros force this. rewrite run_getRecommendedItems. reflexivity.
  - intros folder name this docs recommendedDocs. cbv zeta.
    split; [reflexivity |]. split; reflexivity.
Qed.

(** X13: the store's index fetch, answered by the helper of
    [utils/fetch.ts].  A 404 from the index endpoint is a success with an
    empty index for the helper, so a forced [getIndex] wipes the cached
    index; any other non-ok response, and a fetch that throws, keep the
    cached index. *)
Theorem index_404_wipes_cache_other_failures_keep_it
    (VITE_DOCS_API_BASE : string)
    (fetch : string → Fetch.Outcome DocumentationIndexResponse)
    (type : string) (this : State) :
  let handled :=
    result (StoreSession.helperNetwork VITE_DOCS_API_BASE fetch net)
           (getIndex true type this) in
  let outcome :=
    fetch (VITE_DOCS_API_BASE +:+ "/getIndex/" +:+ version this +:+ "/" +:+ language this) in
  (∀ response, outcome = Fetch.Resolves response → Fetch.status response = 404%Z →
     handled = ([], write_index (indexKeyOf type) [] this))
  ∧ (∀ response, outcome = Fetch.Resolves response →
       Fetch.ok response = false → Fetch.status response ≠ 404%Z →
       handled = (read_index (indexKeyOf type) this, this))
  ∧ (outcome = Fetch.Throws → handled = (read_index (indexKeyOf type) this, this)).
Proof.
  cbv zeta. unfold result. rewrite run_getIndex. cbv zeta. rewrite orb_true_r.
  unfold StoreSession.helperNetwork. rewrite fetchDocumentationIndex_cases.
  split; [| split].
  - intros response -> ->. reflexivity.
  - intros response -> Hok Hne. rewrite (proj2 (Z.eqb_neq _ _) Hne), Hok. reflexivity.
  - intros ->. reflexivity.
Qed.

End StoreGuide.

Lemma index_404_wipes_cache_other_failures_keep_it_witness :
  result (StoreSession.helperNetwork Samples.docsApi Samples.notFound Samples.online)
    (DocumentationStore.getIndex true "Doc" Samples.cached)
  = ([], DocumentationStore.write_index DocumentationStore.docIndexKey [] Samples.cached).
Proof.
  destruct (index_404_wipes_cache_other_failures_keep_it Samples.online Samples.docsApi
              Samples.notFound "Doc" Samples.cached) as (H & _).
  apply (H {| Fetch.status := 404; Fetch.json := None |}); reflexivity.
Defined.

(** ** The routes, continued *)

Section RoutePropertiesContinued.

Import Server.

Variable accessor : ∀ c, AccessorReply c.

Lemma run_getIndexRoute (version language type : string) :
  run accessor (getIndexRoute version language type) =
  match accessor (getIndex version language type) with
  | Number n => (sendStatus n, [getIndex version language type])
  | Data index => (sendJson (IndexBody index), [getIndex version language type])
  end.
Proof.
  unfold getIndexRoute, orSendStatus, perform. simpl.
  destruct (accessor (getIndex version language type)); reflexivity.
Qed.

Lemma pushPlaceholderIfEmpty_nonempty_id (items : list RecommendedItem) :
  items ≠ [] → pushPlaceholderIfEmpty items = items.
Proof. destruct items; [congruence | reflexivity]. Qed.

(** X14: the placeholder is added to empty lists only.  A non-empty list of
    recommended items is sent exactly as the accessor returned it, on the
    recommended-items route and, for each of the two lists, on the refresh
    route. *)
Theorem nonempty_recommended_items_sent_unchanged :
  (∀ language type data,
     accessor (getRecommendedItems language type) = Data data → data ≠ [] →
     result accessor (getRecommendedItemsRoute language type)
     = sendJson (RecommendedItemsBody data))
  ∧ (∀ version language docIndex guideIndex recommendedDocItems recommendedGuideItems,
       result accessor (refreshRoute version language)
       = sendJson (RefreshBody docIndex guideIndex recommendedDocItems recommendedGuideItems) →
       (∀ data, accessor (getRecommendedItems language "Doc") = Data data → data ≠ [] →
          recommendedDocItems = data)
       ∧ (∀ data, accessor (getRecommendedItems language "Guide") = Data data → data ≠ [] →
            recommendedGuideItems = data)
       ∧ accessor (getIndex version language "Doc") = Data docIndex
       ∧ accessor (getIndex version language "Guide") = Data guideIndex).
Proof.
  unfold result. split.
  - intros language type data H Hne. rewrite run_getRecommendedItemsRoute, H.
    now rewrite pushPlaceholderIfEmpty_nonempty_id.
  - intros version language d g rd rg. rewrite run_refreshRoute. cbv zeta.
    destruct (accessor (getIndex version language "Doc")) as [| d1]; [discriminate |].
    destruct (accessor (getIndex version language "Guide")) as [| d2]; [discriminate |].
    destruct (accessor (getRecommendedItems language "Doc")) as [| d3]; [discriminate |].
    destruct (accessor (getRecommendedItems language "Guide")) as [| d4];
      [discriminate |].
    intros [= <- <- <- <-]. repeat split.
    + intros data [= <-] Hne. now apply pushPlaceholderIfEmpty_nonempty_id.
    + intros data [= <-] Hne. now apply pushPlaceholderIfEmpty_nonempty_id.
Qed.

(** X15: the refresh handler is the four single handlers taken together
    (the handlers, that is what each route runs once the middleware in front
    of it, for the refresh route its rate limiter, has passed the request
    on).  The refresh handler replies with the combined object exactly when
    the handler of the index route for Doc and for Guide and the handler of
    the recommended-items route for Doc and for Guide each reply with JSON,
    and its four fields are then the bodies of those four replies; when it
    replies with a bare status, one of those four handlers replies with that
    same status. *)
Theorem refreshRoute_combines_single_routes (version language : string)
    (docIndex guideIndex : list IndexItem)
    (recommendedDocItems recommendedGuideItems : list RecommendedItem) :
  (result accessor (refreshRoute version language)
   = sendJson (RefreshBody docIndex guideIndex recommendedDocItems recommendedGuideItems)
   ↔ result accessor (getIndexRoute version language "Doc") = sendJson (IndexBody docIndex)
     ∧ result accessor (getIndexRoute version language "Guide")
       = sendJson (IndexBody guideIndex)
     ∧ result accessor (getRecommendedItemsRoute language "Doc")
       = sendJson (RecommendedItemsBody recommendedDocItems)
     ∧ result accessor (getRecommendedItemsRoute language "Guide")
       = sendJson (RecommendedItemsBody recommendedGuideItems))
  ∧ (∀ n, result accessor (refreshRoute version language) = sendStatus n →
       result accessor (getIndexRoute version language "Doc") = sendStatus n
       ∨ result accessor (getIndexRoute version language "Guide") = sendStatus n
       ∨ result accessor (getRecommendedItemsRoute language "Doc") = sendStatus n
       ∨ result accessor (getRecommendedItemsRoute language "Guide") = sendStatus n).
Proof.
  unfold result.
  rewrite run_refreshRoute, !run_getIndexRoute, !run_getRecommendedItemsRoute. cbv zeta.
  destruct (accessor (getIndex version language "Doc")) as [n1 | d1];
    [split; [split; [discriminate | intros [H _]; discriminate] | intros n [= ->]; auto] |].
  destruct (accessor (getIndex version language "Guide")) as [n2 | d2];
    [split; [split; [discriminate | intros (_ & H & _); discriminate]
            | intros n [= ->]; auto] |].
  destruct (accessor (getRecommendedItems language "Doc")) as [n3 | d3];
    [split; [split; [discriminate | intros (_ & _ & H & _); discriminate]
            | intros n [= ->]; auto] |].
  destruct (accessor (getRecommendedItems language "Guide")) as [n4 | d4];
    [split; [split; [discriminate | intros (_ & _ & _ & H); discriminate]
            | intros n [= ->]; auto] |].
  simpl. split; [| discriminate]. split.
  - intros [= <- <- <- <-]. repeat split.
  - intros ([= <-] & [= <-] & [= <-] & [= <-]). reflexivity.
Qed.

End RoutePropertiesContinued.

Lemma nonempty_recommended_items_sent_unchanged_witness :
  result Samples.guideIndexMissing (Server.getRecommendedItemsRoute "en-US" "Doc")
  = Server.sendJson (Server.RecommendedItemsBody [Samples.welcome]).
Proof.
  destruct (nonempty_recommended_items_sent_unchanged Samples.guideIndexMissing) as [H _].
  apply H; [reflexivity | discriminate].
Defined.

Lemma refreshRoute_combines_single_routes_witness :
  result Samples.nothingRecommended (Server.refreshRoute "v1" "en-US")
  = Server.sendJson
      (Server.RefreshBody [Samples.getStarted] [Samples.getStarted]
         [Server.placeholder] [Server.placeholder]).
Proof.
  apply (refreshRoute_combines_single_routes Samples.nothingRecommended "v1" "en-US").
  repeat split.
Defined.

(** ** The deploy listener, continued *)

Section ConsumerPropertiesContinued.

Import Uplink.

(** X16: what the callback never does.  Whatever is delivered (a message of
    any content, or the [null] of a cancelled consumer) and whatever the
    platform, the script runs only on linux, only for a delivered message,
    only after that message was acknowledged and the deploy notice logged,
    and the command is the fixed one; a callback that throws has run no
    script, and no message is acknowledged twice. *)
Theorem consumer_runs_script_only_after_ack_on_linux (platform : string)
    (message : option Message) :
  let handled := consumer platform message in
  (script_executed handled →
     platform = "linux"
     ∧ snd handled = Returns
     ∧ ∃ m sender, message = Some m
                   ∧ fst handled = [ack m; log sender "info"; exec "bash deploy.sh"])
  ∧ (fst handled = [] ∨ ∃ m, message = Some m ∧ head (fst handled) = Some (ack m)
                               ∧ ∀ effect, effect ∈ tail (fst handled) → effect ≠ ack m).
Proof.
  cbv zeta. unfold script_executed, consumer.
  assert (Hno : ∀ m command, exec command ∈ [ack m] → False).
  { intros m command H. apply list_elem_of_singleton in H. discriminate. }
  assert (Hnil : ∀ command, exec command ∈ @nil Effect → False).
  { intros command H. inversion H. }
  destruct message as [m |]; [| split; [intros [c H]; now apply Hnil in H | now left]].
  destruct (JSON.parse (content m)) as [v |];
    [| split; [intros [c H]; now apply Hnil in H | now left]].
  destruct (JSON.property "task" v) as [task |];
    [| split; [intros [c H]; now apply Hno in H |];
       right; exists m; repeat split; intros effect H; inversion H].
  destruct (JSON.strict_equals_string task "Deploy"); simpl;
    [| split; [intros [c H]; now apply Hno in H |];
       right; exists m; repeat split; intros effect H; inversion H].
  destruct (bool_decide_reflect (platform = "linux")) as [-> | Hp]; simpl;
    [| split; [intros [c H]; now apply Hno in H |];
       right; exists m; repeat split; intros effect H; inversion H].
  destruct (JSON.property "sender" v) as [sender |]; simpl;
    [| split; [intros [c H]; now apply Hno in H |];
       right; exists m; repeat split; intros effect H; inversion H].
  destruct (JSON.interpolates sender); simpl;
    [| split; [intros [c H]; now apply Hno in H |];
       right; exists m; repeat split; intros effect H; inversion H].
  split.
  - intros _. split; [reflexivity |]. split; [reflexivity |]. now exists m, sender.
  - right. exists m. repeat split. intros effect H. simpl in H.
    apply elem_of_cons in H as [-> | H]; [discriminate |].
    apply list_elem_of_singleton in H as ->. discriminate.
Qed.

(** X17: a message whose JSON text is not an object (null, a boolean, a
    number, a string or an array) is acknowledged and nothing else happens
    to it; for [null] the callback then throws a [TypeError] when it reads
    the task, for the other values it returns. *)
Theorem consumer_acks_non_object_values (platform : string) (message : Message)
    (v : JSON.value)
    (Hparse : JSON.parse (content message) = Some v)
    (Hvalue : ∀ members, v ≠ JSON.JObject members) :
  fst (consumer platform (Some message)) = [ack message]
  ∧ (snd (consumer platform (Some message)) = ThrowsTypeError ↔ v = JSON.JNull)
  ∧ (v ≠ JSON.JNull → snd (consumer platform (Some message)) = Returns).
Proof.
  unfold consumer. rewrite Hparse.
  destruct v; simpl; try (now contradiction (Hvalue members));
    repeat split; try discriminate; try congruence.
Qed.

End ConsumerPropertiesContinued.

Lemma consumer_runs_script_only_after_ack_on_linux_witness :
  ∃ sender,
    fst (Uplink.consumer "linux" (Some Samples.deployTask))
    = [Uplink.ack Samples.deployTask; Uplink.log sender "info";
       Uplink.exec "bash deploy.sh"].
Proof.
  assert (Hexecuted :
    Uplink.script_executed (Uplink.consumer "linux" (Some Samples.deployTask))).
  { exists "bash deploy.sh". vm_compute.
    apply list_elem_of_further, list_elem_of_further, list_elem_of_here. }
  destruct (consumer_runs_script_only_after_ack_on_linux "linux" (Some Samples.deployTask))
    as [H _].
  destruct (H Hexecuted) as (_ & _ & m & sender & [= <-] & Hrun).
  exists sender. exact Hrun.
Defined.

Lemma consumer_acks_non_object_values_witness :
  Uplink.consumer "linux" (Some {| Uplink.content := "null"; Uplink.deliveryTag := 9 |})
  = ([Uplink.ack {| Uplink.content := "null"; Uplink.deliveryTag := 9 |}],
     Uplink.ThrowsTypeError).
Proof.
  destruct (consumer_acks_non_object_values "linux"
              {| Uplink.content := "null"; Uplink.deliveryTag := 9 |} JSON.JNull)
    as (H1 & H2 & _); [vm_compute; reflexivity | discriminate |].
  destruct (Uplink.consumer "linux" _) as [effects completion]. simpl in *.
  rewrite H1, (proj2 H2 eq_refl). reflexivity.
Defined.

(** ** The fetch helpers, continued *)

Section FetchHelpersProperties.

Import Fetch FetchHelpers.

Variable VITE_API_BASE : string.
Variable VITE_DOCS_API_BASE : string.

(** What a page helper makes of the outcome of its fetch. *)
Lemma page_result_cases (outcome : Outcome JSON.value) :
  let r := match outcome with
           | Resolves response =>
               if ok response then
                 match json response with
                 | Some body =>
                     match JSON.property "file" body with
                     | Some file => file
                     | None => js_false
                     end
                 | None => js_false
                 end
               else if (status response =? 404)%Z then js_false
               else js_false
           | Throws => js_false
           end in
  (outcome = Throws → r = js_false)
  ∧ (∀ response, outcome = Resolves response → ok response = false → r = js_false)
  ∧ (∀ response, outcome = Resolves response → ok response = true →
       r = match json response with
           | Some body =>
               match JSON.property "file" body with
               | Some file => file
               | None => js_false
               end
           | None => js_false
           end)
  ∧ (∀ response, outcome = Resolves response → ok response = true →
       json response = Some JSON.JNull → r = js_false)
  ∧ (∀ page, r = Some (JSON.JString page) ↔ delivers outcome page).
Proof.
  cbv zeta. unfold delivers, js_false. destruct outcome as [| response].
  - split; [reflexivity |]. split; [discriminate |]. split; [discriminate |].
    split; [discriminate |].
    intros page. split; [discriminate | intros (r' & b' & H & _); discriminate].
  - split; [discriminate |].
    split; [intros r' [= <-] ->; now destruct (status response =? 404)%Z |].
    split; [now intros r' [= <-] -> |].
    split; [now intros r' [= <-] -> -> |].
    intros page. destruct (ok response) eqn:Hok.
    + destruct (json response) as [body |] eqn:Hjson.
      * destruct (JSON.property "file" body) as [file |] eqn:Hfile.
        -- split.
           ++ intros ->. now exists response, body.
           ++ intros (r' & b' & [= <-] & _ & Hj & Hf). congruence.
        -- split; [discriminate |].
           intros (r' & b' & [= <-] & _ & Hj & Hf). congruence.
      * split; [discriminate |]. intros (r' & b' & [= <-] & _ & Hj & _). congruence.
    + split.
      * now destruct (status response =? 404)%Z.
      * intros (r' & b' & [= <-] & Hok' & _). congruence.
Qed.

(** X18: the three page helpers ([fetchDocumentationPage],
    [fetchDocumentationPages], [fetchDocumentationDefault]) resolve to
    [false] for a thrown fetch and for every non-ok response, 404 included:
    unlike the index and categories helpers they make no exception for 404.
    For an ok response they resolve to the [file] property of the parsed
    body, whatever that value is, and to [false] when the body cannot be
    parsed or is [null].  So a page text is returned exactly when the
    response is ok and its body is an object whose [file] is that text. *)
Theorem page_helpers_fail_on_every_non_ok_response
    (fetch : string → Outcome JSON.value) (folder name version language : string) :
  let pageOutcome :=
    fetch (VITE_DOCS_API_BASE +:+ "/getFile/" +:+ version +:+ "/" +:+ language
           +:+ "?folder=" +:+ folder +:+ "&name=" +:+ name) in
  let pagesOutcome :=
    fetch (VITE_DOCS_API_BASE +:+ "/getFiles/" +:+ version +:+ "/" +:+ language
           +:+ "?folder=" +:+ folder) in
  let defaultOutcome :=
    fetch (VITE_DOCS_API_BASE +:+ "/getDefault/" +:+ version +:+ "/" +:+ language
           +:+ "?folder=" +:+ folder) in
  let page := fetchDocumentationPage VITE_DOCS_API_BASE fetch folder name version language in
  let pages := fetchDocumentationPages VITE_DOCS_API_BASE fetch folder version language in
  let default := fetchDocumentationDefault VITE_DOCS_API_BASE fetch folder version language in
  let from_body (response : Response JSON.value) :=
    match json response with
    | Some body =>
        match JSON.property "file" body with
        | Some file => file
        | None => js_false
        end
    | None => js_false
    end in
  ((pageOutcome = Throws → page = js_false)
   ∧ (∀ response, pageOutcome = Resolves response → ok response = false →
        page = js_false)
   ∧ (∀ response, pageOutcome = Resolves response → ok response = true →
        page = from_body response)
   ∧ (∀ response, pageOutcome = Resolves response → ok response = true →
        json response = Some JSON.JNull → page = js_false)
   ∧ (∀ text, page = Some (JSON.JString text) ↔ delivers pageOutcome text))
  ∧ ((pagesOutcome = Throws → pages = js_false)
     ∧ (∀ response, pagesOutcome = Resolves response → ok response = false →
          pages = js_false)
     ∧ (∀ response, pagesOutcome = Resolves response → ok response = true →
          pages = from_body response)
     ∧ (∀ response, pagesOutcome = Resolves response → ok response = true →
          json response = Some JSON.JNull → pages = js_false)
     ∧ (∀ text, pages = Some (JSON.JString text) ↔ delivers pagesOutcome text))
  ∧ ((defaultOutcome = Throws → default = js_false)
     ∧ (∀ response, defaultOutcome = Resolves response → ok response = false →
          default = js_false)
     ∧ (∀ response, defaultOutcome = Resolves response → ok response = true →
          default = from_body response)
     ∧ (∀ response, defaultOutcome = Resolves response → ok response = true →
          json response = Some JSON.JNull → default = js_false)
     ∧ (∀ text, default = Some (JSON.JString text) ↔ delivers defaultOutcome text)).
Proof.
  cbv zeta. split; [| split].
  - apply (page_result_cases (fetch _)).
  - apply (page_result_cases (fetch _)).
  - apply (page_result_cases (fetch _)).
Qed.

(** X19: [fetchDocumentationPages] reads the field [file] of the response.
    The body the server's files route sends has the field [files] instead,
    so for every successful response with such a body, and with any other
    object that has no [file] member, the helper resolves to [undefined]:
    the list of pages never reaches the caller.  It resolves to a text only
    for a body whose [file] is that text. *)
Theorem fetchDocumentationPages_drops_the_files
    (fetch : string → Outcome JSON.value) (folder version language : string) :
  let outcome :=
    fetch (VITE_DOCS_API_BASE +:+ "/getFiles/" +:+ version +:+ "/" +:+ language
           +:+ "?folder=" +:+ folder) in
  let pages := fetchDocumentationPages VITE_DOCS_API_BASE fetch folder version language in
  (∀ response files,
     outcome = Resolves response → ok response = true →
     json response = Some (filesObject files) →
     pages = None)
  ∧ (∀ response members,
       outcome = Resolves response → ok response = true →
       json response = Some (JSON.JObject members) →
       JSON.lookup_member "file" members = None →
       pages = None)
  ∧ (∀ file, pages = Some (JSON.JString file) →
       ∃ response body, outcome = Resolves response
                        ∧ json response = Some body
                        ∧ JSON.property "file" body = Some (Some (JSON.JString file))).
Proof.
  cbv zeta. unfold fetchDocumentationPages. split; [| split].
  - intros response files -> -> ->. reflexivity.
  - intros response members -> -> -> Hfile. simpl. now rewrite Hfile.
  - intros file H.
    destruct (page_result_cases (fetch (VITE_DOCS_API_BASE +:+ "/getFiles/" +:+ version
                +:+ "/" +:+ language +:+ "?folder=" +:+ folder)))
      as (_ & _ & _ & _ & Hdelivers).
    apply Hdelivers in H as (response & body & Ho & _ & Hj & Hf).
    now exists response, body.
Qed.

(** X20: the session helpers.  [fetchBase] is true exactly when its GET
    request, which carries the token as a Bearer authorization header,
    resolves with a status from 200 to 299; [fetchLogin] resolves to the
    user data exactly when its POST of the credentials resolves with such a
    status and a readable body, and to [false] otherwise, so a rejected
    login (401) and an unreachable server look the same to the caller. *)
Theorem session_helpers_succeed_on_2xx_only
    (UserDataResponse : Type) (stringifyCredentials : string → string → string)
    (T : Type) (fetchSession : Request → Outcome T)
    (fetchUser : Request → Outcome UserDataResponse)
    (token username password : string) :
  let baseOutcome :=
    fetchSession {| url := VITE_API_BASE; method := "GET";
                    headers := [("Authorization", "Bearer " +:+ token)];
                    body := None |} in
  let loginOutcome :=
    fetchUser {| url := VITE_API_BASE +:+ "/login"; method := "POST";
                 headers := [("Content-Type", "application/json")];
                 body := Some (stringifyCredentials username password) |} in
  let login :=
    fetchLogin VITE_API_BASE UserDataResponse stringifyCredentials fetchUser
      username password in
  (fetchBase VITE_API_BASE fetchSession token = true ↔
     ∃ response, baseOutcome = Resolves response
                 ∧ (200 ≤ status response ≤ 299)%Z)
  ∧ (∀ data, login = Payload data ↔
       ∃ response, loginOutcome = Resolves response
                   ∧ (200 ≤ status response ≤ 299)%Z ∧ json response = Some data)
  ∧ (∀ b, login = Sentinel b → b = false)
  ∧ (loginOutcome = Throws → login = Sentinel false)
  ∧ (∀ response, loginOutcome = Resolves response → status response = 401%Z →
       login = Sentinel false).
Proof.
  cbv zeta. unfold fetchBase, fetchLogin.
  assert (Hok : ∀ U (r : Response U), ok r = true ↔ (200 ≤ status r ≤ 299)%Z).
  { intros U r. unfold ok. rewrite andb_true_iff, !Z.leb_le. reflexivity. }
  split; [| split; [| split; [| split]]].
  - destruct (fetchSession _) as [| response].
    + split; [discriminate | intros (r & H & _); discriminate].
    + rewrite Hok. split.
      * intros H. now exists response.
      * now intros (r & [= <-] & H).
  - intros data. destruct (fetchUser _) as [| response].
    + split; [discriminate | intros (r & H & _); discriminate].
    + destruct (ok response) eqn:E.
      * apply Hok in E. destruct (json response) as [d |] eqn:Hj.
        -- split.
           ++ intros [= <-]. now exists response.
           ++ intros (r & [= <-] & _ & Hj'). congruence.
        -- split; [discriminate | intros (r & [= <-] & _ & Hj'); congruence].
      * split; [discriminate |]. intros (r & [= <-] & H & _).
        apply Hok in H. congruence.
  - intros b. destruct (fetchUser _) as [| response]; [congruence |].
    destruct (ok response); [destruct (json response) |]; congruence.
  - intros ->. reflexivity.
  - intros response -> Hs. unfold ok. rewrite Hs. reflexivity.
Qed.

End FetchHelpersProperties.

Lemma page_helpers_fail_on_every_non_ok_response_witness :
  FetchHelpers.fetchDocumentationPage Samples.docsApi MoreSamples.pageServed
    "Get_Started" "Introduction" "v1" "en-US"
  = Some (JSON.JString "<h1>Introduction</h1>")
  ∧ FetchHelpers.fetchDocumentationDefault Samples.docsApi Samples.notFound
      "Get_Started" "v1" "en-US"
    = FetchHelpers.js_false
  ∧ FetchHelpers.fetchDocumentationPage Samples.docsApi MoreSamples.nullServed
      "Get_Started" "Introduction" "v1" "en-US"
    = FetchHelpers.js_false.
Proof.
  destruct (page_helpers_fail_on_every_non_ok_response Samples.docsApi MoreSamples.pageServed
              "Get_Started" "Introduction" "v1" "en-US") as ((_ & _ & _ & _ & H) & _).
  destruct (page_helpers_fail_on_every_non_ok_response Samples.docsApi Samples.notFound
              "Get_Started" "Introduction" "v1" "en-US") as (_ & _ & (_ & H' & _)).
  destruct (page_helpers_fail_on_every_non_ok_response Samples.docsApi MoreSamples.nullServed
              "Get_Started" "Introduction" "v1" "en-US") as ((_ & _ & _ & H'' & _) & _).
  split; [| split].
  - apply H. eexists _, _. repeat split; reflexivity.
  - apply (H' {| Fetch.status := 404; Fetch.json := None |}); reflexivity.
  - apply (H'' {| Fetch.status := 200; Fetch.json := Some JSON.JNull |}); reflexivity.
Defined.

Lemma fetchDocumentationPages_drops_the_files_witness :
  FetchHelpers.fetchDocumentationPages Samples.docsApi MoreSamples.filesServed
    "Get_Started" "v1" "en-US"
  = None.
Proof.
  destruct (fetchDocumentationPages_drops_the_files Samples.docsApi MoreSamples.filesServed
              "Get_Started" "v1" "en-US") as [H _].
  apply (H {| Fetch.status := 200;
              Fetch.json :=
                Some (FetchHelpers.filesObject ["Introduction"; "Collaborating"]) |}
           ["Introduction"; "Collaborating"]); reflexivity.
Defined.

Lemma session_helpers_succeed_on_2xx_only_witness :
  FetchHelpers.fetchBase "https://api.example" MoreSamples.sessionValid "token" = true.
Proof.
  destruct (session_helpers_succeed_on_2xx_only "https://api.example" unit
              (λ username password, username +:+ ":" +:+ password)
              unit MoreSamples.sessionValid (λ _, Fetch.Throws) "token" "u" "p")
    as (H & _).
  apply H. exists {| Fetch.status := 204; Fetch.json := None |}.
  split; [reflexivity |]. simpl. split; discriminate.
Defined.

(** ** All routes *)

Section RoutingProperties.

Import Server Routing.

Variable accessor : ∀ c, AccessorReply c.

(** A route with a single accessor call whose reply is known by [E]. *)
Ltac single_call E Hnil :=
  split; [simpl; lia |];
  split;
  [ try discriminate;
    intros n' [= <-]; eexists [], _; simpl; rewrite E;
    repeat split; intros c' H; now apply Hnil in H
  | try discriminate;
    intros body _ c H; apply list_elem_of_singleton in H as ->; simpl; now rewrite E ].

(** X21: no handler invents a status or answers without asking.  Every
    accessor-backed handler, run on a request that the middleware in front
    of its route has passed on, calls at least one and at most four
    accessors; a bare status it sends is the number returned by the last
    accessor it called, every earlier call having returned data; and when it
    sends JSON every accessor it called returned data. *)
Theorem routes_forward_the_accessor_status (request : Request) :
  let trace := calls accessor (handle request) in
  (1 ≤ length trace ≤ 4)%nat
  ∧ (∀ n, result accessor (handle request) = sendStatus n →
       ∃ earlier c, trace = earlier ++ [c] ∧ numeric c (accessor c) = Some n
                    ∧ ∀ c', c' ∈ earlier → numeric c' (accessor c') = None)
  ∧ (∀ body, result accessor (handle request) = sendJson body →
       ∀ c, c ∈ trace → numeric c (accessor c) = None).
Proof.
  assert (Hnil : ∀ c' : AccessorCall, c' ∈ @nil AccessorCall → False)
    by (intros c' H; inversion H).
  cbv zeta. unfold calls, result.
  destruct request as [v l | v l t q | v l t q | v l t q | v l t | l t | v l t];
    unfold handle.
  - rewrite run_refreshRoute. cbv zeta.
    destruct (accessor (getIndex v l "Doc")) as [n1 | d1] eqn:E1; simpl.
    { split; [lia |]. split; [| discriminate]. intros n [= <-].
      exists [], (getIndex v l "Doc"). simpl. rewrite E1. repeat split.
      intros c' H. now apply Hnil in H. }
    destruct (accessor (getIndex v l "Guide")) as [n2 | d2] eqn:E2; simpl.
    { split; [lia |]. split; [| discriminate]. intros n [= <-].
      exists [getIndex v l "Doc"], (getIndex v l "Guide"). simpl. rewrite E2.
      repeat split. intros c' H. apply list_elem_of_singleton in H as ->. simpl.
      now rewrite E1. }
    destruct (accessor (getRecommendedItems l "Doc")) as [n3 | d3] eqn:E3; simpl.
    { split; [lia |]. split; [| discriminate]. intros n [= <-].
      exists [getIndex v l "Doc"; getIndex v l "Guide"], (getRecommendedItems l "Doc").
      simpl. rewrite E3. repeat split. intros c' H.
      apply elem_of_cons in H as [-> | H]; [simpl; now rewrite E1 |].
      apply list_elem_of_singleton in H as ->. simpl. now rewrite E2. }
    destruct (accessor (getRecommendedItems l "Guide")) as [n4 | d4] eqn:E4; simpl.
    { split; [lia |]. split; [| discriminate]. intros n [= <-].
      exists [getIndex v l "Doc"; getIndex v l "Guide"; getRecommendedItems l "Doc"],
        (getRecommendedItems l "Guide").
      simpl. rewrite E4. repeat split. intros c' H.
      apply elem_of_cons in H as [-> | H]; [simpl; now rewrite E1 |].
      apply elem_of_cons in H as [-> | H]; [simpl; now rewrite E2 |].
      apply list_elem_of_singleton in H as ->. simpl. now rewrite E3. }
    split; [lia |]. split; [discriminate |]. intros body _ c H.
    apply elem_of_cons in H as [-> | H]; [simpl; now rewrite E1 |].
    apply elem_of_cons in H as [-> | H]; [simpl; now rewrite E2 |].
    apply elem_of_cons in H as [-> | H]; [simpl; now rewrite E3 |].
    apply list_elem_of_singleton in H as ->. simpl. now rewrite E4.
  - unfold getFileRoute, orSendStatus, perform. simpl.
    destruct (accessor (getFile _ _ _ _ _)) as [n | d] eqn:E; simpl; single_call E Hnil.
  - unfold getFilesRoute, orSendStatus, perform. simpl.
    destruct (accessor (getFiles _ _ _ _)) as [n | d] eqn:E; simpl; single_call E Hnil.
  - unfold getDefaultRoute, orSendStatus, perform. simpl.
    destruct (accessor (getDefaultFile _ _ _ _)) as [n | d] eqn:E; simpl;
      single_call E Hnil.
  - unfold getIndexRoute, orSendStatus, perform. simpl.
    destruct (accessor (getIndex _ _ _)) as [n | d] eqn:E; simpl; single_call E Hnil.
  - unfold getRecommendedItemsRoute, orSendStatus, perform. simpl.
    destruct (accessor (getRecommendedItems _ _)) as [n | d] eqn:E; simpl;
      single_call E Hnil.
  - unfold getCategoriesRoute, orSendStatus, perform. simpl.
    destruct (accessor (getCategories _ _ _)) as [n | d] eqn:E; simpl; single_call E Hnil.
Qed.

End RoutingProperties.

Lemma routes_forward_the_accessor_status_witness :
  ∃ earlier c,
    calls Samples.guideIndexMissing
      (Routing.handle (Routing.refreshRequest "v1" "en-US")) = earlier ++ [c]
    ∧ Routing.numeric c (Samples.guideIndexMissing c) = Some 404%Z.
Proof.
  destruct (routes_forward_the_accessor_status Samples.guideIndexMissing
              (Routing.refreshRequest "v1" "en-US")) as (_ & H & _).
  destruct (H 404%Z) as (earlier & c & Htrace & Hc & _); [reflexivity |].
  now exists earlier, c.
Defined.
